(** * goping: a shallow embedding of [goping.go] and its checked properties

    The program is a command-line ICMP echo utility.  This development
    embeds its functions ([main], [parseIP], [ping], [createICMPMessage],
    [sendPing], [printTimeout], [printPingReply]) as Rocq functions over
    an explicit world (the shared [packetLoss] counters and the trace of
    observable effects) and settles the properties stated about them. *)

From Stdlib Require Import ZArith Lia List Bool String Ascii.
From Stdlib Require Import Floats.SpecFloat.
From Stdlib Require Import DecimalString.
Import ListNotations.

Open Scope Z_scope.

(** ** Machine integers

    Go's [int] is 64 bits wide on the platforms the program targets; it is
    embedded as [Z] with the two's-complement wrap-around written out. *)

Module GoInt.

Definition min_int : Z := - 2 ^ 63.
Definition max_int : Z := 2 ^ 63 - 1.

Definition wrap (z : Z) : Z := (z + 2 ^ 63) mod 2 ^ 64 - 2 ^ 63.

Definition in_range (z : Z) : Prop := min_int <= z <= max_int.

Definition add (a b : Z) : Z := wrap (a + b).
Definition mul (a b : Z) : Z := wrap (a * b).

(** [x++] *)
Definition incr (a : Z) : Z := add a 1.

(** Integer division truncates toward zero and panics on a zero divisor;
    [None] stands for the run-time panic. *)
Definition div (a b : Z) : option Z :=
  if b =? 0 then None else Some (wrap (Z.quot a b)).

End GoInt.

(** ** float64

    IEEE 754 binary64 values, through the Standard Library's specification
    of floating-point numbers (round to nearest, ties to even). *)

Module Float64.

Definition prec : Z := 53.
Definition emax : Z := 1024.

(** [float64(z)] for an integer [z]. *)
Definition of_int (z : Z) : spec_float :=
  binary_normalize prec emax z 0 false.

Definition mul (x y : spec_float) : spec_float := SFmul prec emax x y.
Definition div (x y : spec_float) : spec_float := SFdiv prec emax x y.

(** The least integer not below [m * 2^e] (for [m] of either sign). *)
Definition ceil_scaled (m e : Z) : Z :=
  if 0 <=? e then m * 2 ^ e else - ((- m) / 2 ^ (- e)).

(** [math.Ceil]: the special cases (zeros, infinities, NaN) are returned
    unchanged; a result that rounds up to zero keeps the sign. *)
Definition Ceil (x : spec_float) : spec_float :=
  match x with
  | S754_finite s m e =>
      let v := ceil_scaled (if s then Z.neg m else Z.pos m) e in
      if v =? 0 then S754_zero s else binary_normalize prec emax v 0 s
  | _ => x
  end.

(** [int(x)]: the fractional part is discarded.  A value that does not fit
    (or is not finite) converts, on amd64, to the least [int]. *)
Definition to_int (x : spec_float) : Z :=
  match x with
  | S754_zero _ => 0
  | S754_finite s m e =>
      let a := if 0 <=? e then Z.pos m * 2 ^ e else Z.pos m / 2 ^ (- e) in
      let v := if s then - a else a in
      if (GoInt.min_int <=? v) && (v <=? GoInt.max_int) then v
      else GoInt.min_int
  | _ => GoInt.min_int
  end.

End Float64.

(** ** Data *)

Definition byte := Z.
Definition error := string.

(** [type packetLoss struct { totalPackets, lostPackets int }] *)
Record packetLoss : Type := mkPacketLoss {
  totalPackets : Z;
  lostPackets : Z
}.

(** The part of [icmp.Message] the program reads: [Type] (an
    [ipv4.ICMPType]) and [Code]. *)
Record Message : Type := mkMessage {
  Type_ : Z;
  Code : Z
}.

Definition ICMPTypeEchoReply : Z := 0.
Definition ICMPTypeEcho : Z := 8.

(** A [net.Addr], identified with the text its [String] method gives. *)
Definition Addr := string.

(** [type readPacket struct] *)
Record readPacket : Type := mkReadPacket {
  lenMsg : Z;
  addr : Addr;
  msg : list byte;
  dur : Z;
  err : option error
}.

(** ** The loss computation of [printPingReply]

    [int(math.Ceil(float64(pl.lostPackets/pl.totalPackets) * 100))]:
    the quotient is taken on the two [int] fields, then converted. *)
Definition lossPercent (pl : packetLoss) : option Z :=
  match GoInt.div (lostPackets pl) (totalPackets pl) with
  | None => None
  | Some q =>
      Some (Float64.to_int
              (Float64.Ceil (Float64.mul (Float64.of_int q)
                                         (Float64.of_int 100))))
  end.

(** The computation as the specification words it:
    [ceil(lostPackets / totalPackets * 100)] with the division performed in
    floating point, and [0] when [totalPackets] is [0]. *)
Definition LossPercent_spec (pl : packetLoss) : Z :=
  if totalPackets pl =? 0 then 0
  else Float64.to_int
         (Float64.Ceil
            (Float64.mul (Float64.div (Float64.of_int (lostPackets pl))
                                      (Float64.of_int (totalPackets pl)))
                         (Float64.of_int 100))).

(** ** Strings

    The functions of Go's [strings] package that [parseIP] calls, on
    byte strings.  An absent index (Go's [-1]) is [None]. *)

Module Strings.

Open Scope string_scope.

(** [s[:n]] and [s[n:]] *)
Fixpoint take (n : nat) (s : string) : string :=
  match n, s with
  | S n', String c s' => String c (take n' s')
  | _, _ => EmptyString
  end.

Fixpoint drop (n : nat) (s : string) : string :=
  match n, s with
  | S n', String _ s' => drop n' s'
  | _, _ => s
  end.

Fixpoint HasPrefix (s pre : string) : bool :=
  match pre, s with
  | EmptyString, _ => true
  | String a pre', String b s' => Ascii.eqb a b && HasPrefix s' pre'
  | String _ _, EmptyString => false
  end.

(** [strings.Index]: the position of the first occurrence of [substr]. *)
Fixpoint Index (s substr : string) : option nat :=
  if HasPrefix s substr then Some 0%nat
  else match s with
       | EmptyString => None
       | String _ s' => option_map S (Index s' substr)
       end.

(** [strings.Contains] *)
Definition Contains (s substr : string) : bool :=
  match Index s substr with Some _ => true | None => false end.

(** [strings.Count] for a non-empty [substr]: the number of
    non-overlapping occurrences, found left to right.  Every round removes
    at least one byte, so [length s] rounds are enough. *)
Fixpoint count_loop (fuel : nat) (s substr : string) : nat :=
  match fuel with
  | O => O
  | S fuel' =>
      match Index s substr with
      | None => O
      | Some i => S (count_loop fuel' (drop (i + length substr) s) substr)
      end
  end.

Definition Count (s substr : string) : nat := count_loop (length s) s substr.

(** The loop of [genSplit]: at most [n] cuts, the rest of [s] last. *)
Fixpoint split_loop (n : nat) (s sep : string) : list string :=
  match n with
  | O => [s]
  | S n' =>
      match Index s sep with
      | None => [s]
      | Some m => take m s :: split_loop n' (drop (m + length sep) s) sep
      end
  end.

(** [strings.Split] for a non-empty separator. *)
Definition Split (s sep : string) : list string :=
  split_loop (Count s sep) s sep.

End Strings.

(** ** parseIP, up to the call of the resolver

    [addr] of [parseIP]: the string handed to [net.ResolveIPAddr].
    [None] is the index-out-of-range panic of [[1]]. *)
Definition parseIP_addr (ip : string) : option string :=
  if Strings.Contains ip "www." then nth_error (Strings.Split ip "www.") 1
  else Some ip.

(** ** The ICMP message codec *)

Module ICMP.

(** The sum of the 16-bit big-endian words of [b]; a trailing odd byte is
    padded with a zero byte. *)
Fixpoint sum16 (b : list byte) : Z :=
  match b with
  | hi :: lo :: rest => Z.shiftl hi 8 + lo + sum16 rest
  | [hi] => Z.shiftl hi 8
  | [] => 0
  end.

(** End-around carry: fold the carries above bit 15 back in, twice. *)
Definition fold16 (s : Z) : Z :=
  let s1 := Z.shiftr s 16 + Z.land s 65535 in
  Z.land (s1 + Z.shiftr s1 16) 65535.

(** The Internet checksum: the one's complement of the one's-complement
    sum of the message. *)
Definition checksum (b : list byte) : Z := Z.lxor (fold16 (sum16 b)) 65535.

(** What a receiver checks: the sum over the whole message, checksum
    field included, is all ones. *)
Definition checksum_ok (b : list byte) : bool := fold16 (sum16 b) =? 65535.

(** [binary.BigEndian.PutUint16] of [uint16(v)] *)
Definition be16 (v : Z) : list byte :=
  [Z.land (Z.shiftr v 8) 255; Z.land v 255].

(** Modelled from the spec: [icmp.Message.Marshal] with an [icmp.Echo]
    body belongs to golang.org/x/net/icmp and is not under src/.  The
    specification gives the wire format as "type, code, checksum,
    identifier, sequence, payload" with "a correct checksum over the whole
    message": one byte of type, one of code, two of checksum, the
    identifier and the sequence number as 16-bit big-endian fields, then
    the payload; the checksum is computed with its own field zeroed. *)
Definition Marshal (typ code id seq : Z) (data : list byte) : list byte :=
  let zeroed :=
    [Z.land typ 255; Z.land code 255; 0; 0] ++ be16 id ++ be16 seq ++ data in
  [Z.land typ 255; Z.land code 255] ++ be16 (checksum zeroed)
    ++ be16 id ++ be16 seq ++ data.

End ICMP.

(** ** The world: shared counters and observable effects *)

Inductive event : Type :=
| Stdout (line : string)            (* one line written to standard output *)
| FlagDefaults                      (* the text of [flag.PrintDefaults] *)
| LogFatal (e : error)              (* the message of [log.Fatal] *)
| SignalNotify                      (* [closeHandler] installs its handler *)
| Sleep (d : Z)                     (* [time.Sleep], nanoseconds *)
| Resolve (network host : string)   (* [net.ResolveIPAddr] *)
| ListenPacket (network host : string)
| Close
| WriteTo (m : list byte) (dest : Addr)
| ReadFrom (size : Z)               (* the receiving goroutine starts *)
| After (d : Z)                     (* the timer is armed, nanoseconds *)
| Store (pl : packetLoss).          (* a write to the shared counters *)

Record world : Type := mkWorld {
  pl : packetLoss;
  trace : list event
}.

(** How a computation ends: it returns, the process exits ([os.Exit]), a
    run-time panic, or (for the unbounded loop) the observation budget is
    used up while the program is still running. *)
Inductive outcome (A : Type) : Type :=
| Ret (a : A)
| Exit (code : Z)
| Panic
| Running.

Arguments Ret {A} a.
Arguments Exit {A} code.
Arguments Panic {A}.
Arguments Running {A}.

Definition M (A : Type) : Type := world -> outcome A * world.

Definition ret {A} (a : A) : M A := fun w => (Ret a, w).

Definition bind {A B} (m : M A) (k : A -> M B) : M B :=
  fun w =>
    match m w with
    | (Ret a, w') => k a w'
    | (Exit c, w') => (Exit c, w')
    | (Panic, w') => (Panic, w')
    | (Running, w') => (Running, w')
    end.

Notation "x <- m ;; k" := (bind m (fun x => k))
  (at level 61, m at next level, right associativity).
Notation "m ;; k" := (bind m (fun _ => k))
  (at level 61, right associativity).

Definition emit (e : event) : M unit :=
  fun w => (Ret tt, mkWorld (pl w) (trace w ++ [e])).

Definition get_pl : M packetLoss := fun w => (Ret (pl w), w).

Definition set_pl (p : packetLoss) : M unit :=
  fun w => (Ret tt, mkWorld p (trace w ++ [Store p])).

Definition exit {A} (code : Z) : M A := fun w => (Exit code, w).
Definition panic {A} : M A := fun w => (Panic, w).
Definition running {A} : M A := fun w => (Running, w).

(** [log.Fatal(err)]: print, then [os.Exit(1)]. *)
Definition log_Fatal {A} (e : error) : M A := emit (LogFatal e) ;; exit 1.

(** [if err != nil { log.Fatal(err) }] *)
Definition check (err : option error) : M unit :=
  match err with
  | Some e => log_Fatal e
  | None => ret tt
  end.

(** [defer d]: [d] runs when the body returns or panics; [os.Exit] skips
    deferred calls. *)
Definition defer {A} (d : M unit) (body : M A) : M A :=
  fun w =>
    match body w with
    | (Ret a, w') => (Ret a, snd (d w'))
    | (Panic, w') => (Panic, snd (d w'))
    | r => r
    end.

(** A value or an error, for the library calls that return [(v, err)]. *)
Inductive errorOr (A : Type) : Type :=
| Val (a : A)
| Err (e : error).

Arguments Val {A} a.
Arguments Err {A} e.

(** ** What the program takes from its platform

    Library functions whose results the program only passes on, and the
    process identifier. *)
Class Platform : Type := {
  Getpid : Z;
  ResolveIPAddr : string -> string -> errorOr Addr;
  ParseMessage : Z -> list byte -> errorOr Message;
  ICMPType_String : Z -> string;
  Duration_String : Z -> string
}.

(** What the network does during one probe: the results of
    [icmp.ListenPacket] and [WriteTo], which side of the [select] is taken,
    and the reading of the clock by [time.Since]. *)
Inductive race : Type :=
| RecvFirst (n : Z) (replyIP : Addr) (rerr : option error) (data : list byte)
| TimerFirst.

Record probe_env : Type := mkProbeEnv {
  listen_err : option error;
  write_err : option error;
  select_ : race;
  since : Z
}.

(** ** Formatting *)

(** [%v] of an [int]. *)
Definition itoa (z : Z) : string := NilZero.string_of_int (Z.to_int z).

Definition Millisecond : Z := 1000000.
Definition Second : Z := 1000000000.

(** [time.Duration.Truncate] *)
Definition Truncate (d m : Z) : Z :=
  if m <=? 0 then d else d - Z.rem d m.

(** ** The program *)

Section Program.

Context {P : Platform}.

Open Scope string_scope.

(** [func parseIP(ip string) *net.IPAddr] *)
Definition parseIP (ip : string) : M Addr :=
  match parseIP_addr ip with
  | None => panic
  | Some a =>
      emit (Resolve "ip4" a) ;;
      match ResolveIPAddr "ip4" a with
      | Err e => log_Fatal e
      | Val dest => ret dest
      end
  end.

(** [func createICMPMessage() []byte]: type [ipv4.ICMPTypeEcho], code 0,
    [ID: os.Getpid() & 0xffff], [Seq: 1], empty [Data].  [Marshal] has no
    error to report for an Echo body, so the [log.Fatal] branch is dead. *)
Definition createICMPMessage : M (list byte) :=
  ret (ICMP.Marshal ICMPTypeEcho 0 (Z.land Getpid 65535) 1 []).

(** [replyBytes] after [ReadFrom] stored [data] in the 1500-byte buffer. *)
Definition replyBytes (data : list byte) : list byte :=
  let stored := firstn 1500 data in
  stored ++ repeat 0%Z (1500 - List.length stored).

(** [b[:n]], which panics unless [0 <= n <= cap(b)]. *)
Definition slice_to (b : list byte) (n : Z) : option (list byte) :=
  if (0 <=? n)%Z && (n <=? Z.of_nat (List.length b))%Z
  then Some (firstn (Z.to_nat n) b)
  else None.

(** [time.Duration(timeout * 1000000)], the argument of [time.After]:
    an [int] product, then a conversion between 64-bit types. *)
Definition timer_duration (timeout : Z) : Z := GoInt.mul timeout 1000000.

(** [func sendPing(ch, dest, msg, timeout, pl) readPacket] *)
Definition sendPing (dest : Addr) (m : list byte) (timeout : Z)
    (env : probe_env) : M readPacket :=
  emit (WriteTo m dest) ;;
  (* [_, err := ch.WriteTo(msg, dest)]: the function's own [err] *)
  let err0 := write_err env in
  check err0 ;;
  emit (ReadFrom 1500) ;;
  emit (After (timer_duration timeout)) ;;
  match select_ env with
  | RecvFirst n replyIP rerr data =>
      (* the goroutine's [err] is a new variable; it reaches [r.err] only *)
      let r := mkReadPacket n replyIP [] 0 rerr in
      (* line 139 tests the function's [err], the result of [WriteTo] *)
      check err0 ;;
      match slice_to (replyBytes data) (lenMsg r) with
      | None => panic
      | Some bytes =>
          ret (mkReadPacket (lenMsg r) (addr r) bytes (since env) (err r))
      end
  | TimerFirst =>
      p <- get_pl ;;
      set_pl (mkPacketLoss (totalPackets p) (GoInt.incr (lostPackets p))) ;;
      ret (mkReadPacket (-1) EmptyString [] 0 None)
  end.

(** [func printTimeout(addr, timeout)] *)
Definition printTimeout (a : Addr) (timeout : Z) : M unit :=
  emit (Stdout "Request timed out.").

(** The advisory line of [printPingReply]. *)
Definition advisory (typ : Z) : string :=
  "Expecting echo reply, instead got code " ++ ICMPType_String typ.

(** The line of [case 0]. *)
Definition reply_line (raddr : Addr) (d : Z) (loss : Z) : string :=
  "Reply from " ++ raddr ++ ": time="
    ++ Duration_String (Truncate d Millisecond)
    ++ " loss=" ++ itoa loss ++ "%".

(** [func printPingReply(rm, dur, raddr, pl)] *)
Definition printPingReply (rm : Message) (d : Z) (raddr : Addr) : M unit :=
  p <- get_pl ;;
  match lossPercent p with
  | None => panic
  | Some loss =>
      (if negb (Type_ rm =? ICMPTypeEchoReply)%Z
       then emit (Stdout (advisory (Type_ rm)))
       else ret tt) ;;
      match Code rm with
      | 0%Z => emit (Stdout (reply_line raddr d loss))
      | 1%Z => emit (Stdout "Could not reach host")
      | c => emit (Stdout ("Received code " ++ itoa c))
      end
  end.

(** [func ping(addr, timeout, pl)] *)
Definition ping (a : Addr) (timeout : Z) (env : probe_env) : M unit :=
  p <- get_pl ;;
  set_pl (mkPacketLoss (GoInt.incr (totalPackets p)) (lostPackets p)) ;;
  emit (ListenPacket "ip4:icmp" "0.0.0.0") ;;
  check (listen_err env) ;;
  defer (emit Close)
    (message <- createICMPMessage ;;
     rp <- sendPing a message timeout env ;;
     if (lenMsg rp =? -1)%Z then printTimeout a timeout
     else
       match ParseMessage 1 (msg rp) with
       | Err e => log_Fatal e
       | Val replyMsg => printPingReply replyMsg (dur rp) (addr rp)
       end).

(** [func closeHandler()]: the handler itself runs when a signal comes. *)
Definition closeHandler : M unit := emit SignalNotify.

Definition on_signal {A} : M A := emit (Stdout "Done.") ;; exit 0.

(** One round of either loop: [time.Sleep(time.Second)], then [ping].
    [interrupt k] says that the interrupt signal arrives during the sleep
    before probe [k]. *)
Definition round (parsedIP : Addr) (timeout : Z)
    (envs : nat -> probe_env) (interrupt : nat -> bool) (k : nat) : M unit :=
  emit (Sleep Second) ;;
  (if interrupt k then on_signal else ret tt) ;;
  ping parsedIP timeout (envs k).

(** [for { ... }], observed for [fuel] rounds. *)
Fixpoint forever (fuel : nat) (body : nat -> M unit) (k : nat) : M unit :=
  match fuel with
  | O => running
  | S fuel' => body k ;; forever fuel' body (S k)
  end.

(** [for i := 0; i < *iters; i++ { ... }], observed for [fuel] rounds. *)
Fixpoint for_loop (fuel : nat) (i iters : Z) (body : nat -> M unit)
    (k : nat) : M unit :=
  if (i <? iters)%Z then
    match fuel with
    | O => running
    | S fuel' =>
        body k ;; for_loop fuel' (GoInt.incr i) iters body (S k)
    end
  else ret tt.

(** [func main()], after [flag.Parse]: [iters] and [timeout] are the
    values of [-n] and [-w], [ip] is [flag.Arg(0)] (empty when there is no
    positional argument). *)
Definition main (iters timeout : Z) (ip : string)
    (envs : nat -> probe_env) (interrupt : nat -> bool) (fuel : nat)
    : M unit :=
  if String.eqb ip EmptyString then
    emit (Stdout "Usage: goping [Arguments] IP/Hostname") ;;
    emit FlagDefaults ;;
    ret tt
  else
    closeHandler ;;
    parsedIP <- parseIP ip ;;
    set_pl (mkPacketLoss 0 0) ;;
    if (iters <? 0)%Z then
      emit (Stdout ("Pinging " ++ ip ++ " [" ++ parsedIP ++ "]")) ;;
      forever fuel (round parsedIP timeout envs interrupt) O
    else
      emit (Stdout ("Pinging " ++ ip ++ " [" ++ parsedIP ++ "] "
                      ++ itoa iters ++ " times")) ;;
      for_loop fuel 0 iters (round parsedIP timeout envs interrupt) O.

End Program.

(** The world a process starts in. *)
Definition start : world := mkWorld (mkPacketLoss 0 0) [].

(** The number of probes a trace shows: one [ListenPacket] each. *)
Definition is_probe (e : event) : bool :=
  match e with ListenPacket _ _ => true | _ => false end.

Definition probes (t : list event) : nat := List.length (filter is_probe t).

(** A platform to run the embedding on: every name resolves to itself,
    a reply parses to its first two bytes. *)
Definition sample_platform : Platform := {|
  Getpid := 4242;
  ResolveIPAddr := fun _ host => Val host;
  ParseMessage := fun _ b =>
    match b with
    | t :: c :: _ :: _ :: _ => Val (mkMessage t c)
    | _ => Err "message too short"%string
    end;
  ICMPType_String := fun t => itoa t;
  Duration_String := fun d => (itoa (d / Millisecond) ++ "ms")%string
|}.

(** ** Vocabulary of the properties *)

(** The line [printPingReply] chooses by the reply's code. *)
Definition code_line {P : Platform} (rm : Message) (d : Z) (raddr : Addr)
    (loss : Z) : string :=
  if Code rm =? 0 then
    "Reply from " ++ raddr ++ ": time="
      ++ Duration_String (Truncate d Millisecond)
      ++ " loss=" ++ itoa loss ++ "%"
  else if Code rm =? 1 then "Could not reach host"
  else "Received code " ++ itoa (Code rm).

(** The timeout of the claim: [t] milliseconds, in the nanoseconds of
    [time.Duration]. *)
Definition milliseconds (t : Z) : Z := t * Millisecond.

(** The largest timeout whose nanosecond count fits an [int]. *)
Definition max_timeout : Z := 9223372036854.

(** The events of a probe up to the race. *)
Definition probe_prefix {P : Platform} (a : Addr) (timeout : Z)
    : list event :=
  [ListenPacket "ip4:icmp" "0.0.0.0";
   WriteTo (ICMP.Marshal ICMPTypeEcho 0 (Z.land Getpid 65535) 1 []) a;
   ReadFrom 1500;
   After (timer_duration timeout)].

(** The checks on the encoding of an Echo Request with identifier [id]:
    the header bytes, the two 16-bit fields read back, and the checksum as
    a receiver verifies it. *)
Definition echo_ok (id : Z) : bool :=
  match ICMP.Marshal ICMPTypeEcho 0 id 1 [] with
  | [t; c; ch; cl; ih; il; sh; sl] as b =>
      (t =? 8) && (c =? 0)
      && (0 <=? ch) && (ch <? 256) && (0 <=? cl) && (cl <? 256)
      && (256 * ih + il =? id) && (0 <=? il) && (il <? 256)
      && (sh =? 0) && (sl =? 1)
      && ICMP.checksum_ok b
  | _ => false
  end.

(** The [n] integers from [z] on. *)
Fixpoint upto (n : nat) (z : Z) : list Z :=
  match n with
  | O => []
  | S n' => z :: upto n' (z + 1)
  end.

Definition all_ids : list Z := upto (Z.to_nat 65536) 0.

(** The values written to the shared counters, in order. *)
Fixpoint stores (t : list event) : list packetLoss :=
  match t with
  | [] => []
  | Store p :: t' => p :: stores t'
  | _ :: t' => stores t'
  end.

(** The probe reaches the race and the timer fires first. *)
Definition timed_out (env : probe_env) : bool :=
  match listen_err env, write_err env, select_ env with
  | None, None, TimerFirst => true
  | _, _, _ => false
  end.

(** The counters after the increment at the top of [ping], and after the
    increment of the timeout branch of [sendPing]. *)
Definition attempted (p : packetLoss) : packetLoss :=
  mkPacketLoss (GoInt.incr (totalPackets p)) (lostPackets p).

Definition lost (p : packetLoss) : packetLoss :=
  mkPacketLoss (totalPackets p) (GoInt.incr (lostPackets p)).

(** [ReadFrom] reports a byte count within the buffer it was given. *)
Definition read_in_buffer (env : probe_env) : bool :=
  match select_ env with
  | RecvFirst n _ _ _ => (0 <=? n) && (n <=? 1500)
  | TimerFirst => true
  end.

(** The invariant of the counters. *)
Definition counters_ok (p : packetLoss) : Prop :=
  0 <= lostPackets p <= totalPackets p.

Definition world_ok (w : world) : Prop :=
  counters_ok (pl w) /\ Forall counters_ok (stores (trace w)).

(** A network for the examples: the first probe times out, the later
    ones are answered by an Echo Reply with code 0. *)
Definition sample_envs (k : nat) : probe_env :=
  match k with
  | O => mkProbeEnv None None TimerFirst 0
  | _ => mkProbeEnv None None
           (RecvFirst 8 "10.0.0.7"%string None [0; 0; 0; 0; 0; 1; 0; 1])
           12345678
  end.

(** [n] rounds in sequence, the first with index [k]. *)
Fixpoint rounds_from (n : nat) (body : nat -> M unit) (k : nat) : M unit :=
  match n with
  | O => ret tt
  | S n' => body k ;; rounds_from n' body (S k)
  end.

Definition is_sleep (e : event) : bool :=
  match e with Sleep _ => true | _ => false end.

Definition sleeps (t : list event) : nat := List.length (filter is_sleep t).

(** The network lets the probe run to its end: the socket opens, the
    request is sent, and either the timer fires first or a message is
    received, within the buffer, that parses. *)
Definition quiet {P : Platform} (env : probe_env) : bool :=
  match listen_err env, write_err env, select_ env with
  | None, None, TimerFirst => true
  | None, None, RecvFirst n _ _ data =>
      (0 <=? n) && (n <=? 1500)
      && match ParseMessage 1 (firstn (Z.to_nat n) (replyBytes data)) with
         | Val _ => true
         | Err _ => false
         end
  | _, _, _ => false
  end.

(** A round is a one-second sleep followed by the events of one probe. *)
Definition one_probe (r : list event) : Prop :=
  probes r = 1%nat /\ sleeps r = 0%nat.

Definition with_sleep (r : list event) : list event := Sleep Second :: r.

(** The socket cannot be opened (the usual case without the privilege
    for raw ICMP): every probe ends in [log.Fatal]. *)
Definition refused_envs (k : nat) : probe_env :=
  mkProbeEnv (Some "socket: operation not permitted"%string) None
    TimerFirst 0.

(** The operations on the socket and the timer among the events. *)
Definition is_protocol (e : event) : bool :=
  match e with
  | ListenPacket _ _ | Close | WriteTo _ _ | ReadFrom _ | After _ => true
  | _ => false
  end.

Definition protocol_events (t : list event) : list event :=
  filter is_protocol t.

(** The request every probe sends. *)
Definition request {P : Platform} : list byte :=
  ICMP.Marshal ICMPTypeEcho 0 (Z.land Getpid 65535) 1 [].

(** The number of probes among the first [n] that time out. *)
Definition timeouts (envs : nat -> probe_env) (n : nat) : Z :=
  Z.of_nat (List.length (filter timed_out (map envs (seq 0 n)))).

(** A platform whose resolver knows no name. *)
Definition no_dns_platform : Platform := {|
  Getpid := 4242;
  ResolveIPAddr := fun _ host => Err ("lookup " ++ host ++ ": no such host")%string;
  ParseMessage := fun _ _ => Err "message too short"%string;
  ICMPType_String := fun t => itoa t;
  Duration_String := fun d => itoa d
|}.

(** A network on which the first probe times out and the socket cannot
    be opened from the second probe on. *)
Definition refused_later_envs (k : nat) : probe_env :=
  match k with
  | O => mkProbeEnv None None TimerFirst 0
  | _ => refused_envs k
  end.

(** The lines "Request timed out." among the events. *)
Definition is_timeout_line (e : event) : bool :=
  match e with
  | Stdout l => String.eqb l "Request timed out."
  | _ => false
  end.

Definition timeout_lines (t : list event) : nat :=
  List.length (filter is_timeout_line t).

(** * Properties *)

(** ** Tactics for running the embedding *)

Ltac unfold_monad :=
  unfold bind, ret, emit, get_pl, set_pl, exit, panic, running, log_Fatal,
    check, defer in *.

(** ** Machine integers *)

Lemma wrap_in_range (z : Z) :
  GoInt.min_int <= z <= GoInt.max_int -> GoInt.wrap z = z.
Proof.
  unfold GoInt.wrap, GoInt.min_int, GoInt.max_int. intros H.
  rewrite Z.mod_small; lia.
Qed.

Lemma incr_below_max (z : Z) :
  GoInt.min_int <= z < GoInt.max_int -> GoInt.incr z = z + 1.
Proof.
  intros H. unfold GoInt.incr, GoInt.add. apply wrap_in_range. lia.
Qed.

(** ** The loss computation *)

(** With the counters of a run ([0 <= lost <= total], [total > 0]) the
    quotient of the two [int]s is [1] when every probe was lost and [0]
    otherwise, so the computed percentage is [100] or [0]. *)
Lemma lossPercent_in_run (total lost : Z) :
  0 <= lost <= total -> 0 < total -> total <= GoInt.max_int ->
  lossPercent (mkPacketLoss total lost)
  = Some (if lost =? total then 100 else 0).
Proof.
  intros Hl Ht Hm. unfold lossPercent, GoInt.div. simpl.
  destruct (total =? 0) eqn:E0; [lia|].
  destruct (lost =? total) eqn:E.
  - apply Z.eqb_eq in E. subst lost.
    rewrite Z.quot_same by lia. reflexivity.
  - apply Z.eqb_neq in E.
    rewrite Z.quot_small by lia. reflexivity.
Qed.

Lemma lossPercent_nonzero (p : packetLoss) :
  totalPackets p <> 0 -> exists loss, lossPercent p = Some loss.
Proof.
  intros H. unfold lossPercent, GoInt.div.
  destruct (totalPackets p =? 0) eqn:E; [lia|]. eauto.
Qed.

(** C1 (the code departs from the claim).  After two probes of which one
    timed out, [printPingReply] computes a loss of 0 and prints it in the
    success line, where the floating-point quotient [ceil(1/2*100)] of the
    claim is 50: the quotient is taken on the integers before the
    conversion to [float64]. *)
Theorem loss_of_one_in_two_is_zero :
  lossPercent (mkPacketLoss 2 1) = Some 0
  /\ LossPercent_spec (mkPacketLoss 2 1) = 50
  /\ forall (P : Platform) (d : Z) (raddr : Addr) (t : list event),
       printPingReply (mkMessage ICMPTypeEchoReply 0) d raddr
         (mkWorld (mkPacketLoss 2 1) t)
       = (Ret tt,
          mkWorld (mkPacketLoss 2 1)
            (t ++ [Stdout ("Reply from " ++ raddr ++ ": time="
                             ++ Duration_String (Truncate d Millisecond)
                             ++ " loss=0%")])).
Proof.
  split; [reflexivity|]. split; [reflexivity|].
  intros. reflexivity.
Qed.

(** ** The printer *)

Lemma printPingReply_lines {P : Platform} (rm : Message) (d : Z)
    (raddr : Addr) (w : world) (loss : Z) :
  lossPercent (pl w) = Some loss ->
  printPingReply rm d raddr w
  = (Ret tt,
     mkWorld (pl w)
       (trace w
          ++ (if Type_ rm =? ICMPTypeEchoReply then []
              else [Stdout ("Expecting echo reply, instead got code "
                              ++ ICMPType_String (Type_ rm))])
          ++ [Stdout (code_line rm d raddr loss)])).
Proof.
  intros Hl. unfold printPingReply, code_line. unfold_monad.
  rewrite Hl.
  destruct (Type_ rm =? ICMPTypeEchoReply); simpl;
    destruct (Code rm) as [|c|c]; simpl;
    try (destruct c; simpl);
    rewrite <- ?app_assoc; try reflexivity.
Qed.

(** C3.  [printTimeout] prints the line "Request timed out.".
    [printPingReply], once the loss percentage is computed, prints first
    the advisory line naming the type when the type is not Echo-Reply, and
    then one line chosen by the code alone: for code 0 the reply line with
    the address, the duration and the percentage; for code 1 the line
    "Could not reach host", whatever the duration; for any other code the
    line "Received code" with the code. *)
Theorem printer_lines (P : Platform) (rm : Message) (d : Z) (raddr : Addr)
    (timeout : Z) (w : world) (loss : Z) :
  lossPercent (pl w) = Some loss ->
  printTimeout raddr timeout w
  = (Ret tt, mkWorld (pl w) (trace w ++ [Stdout "Request timed out."]))
  /\ (exists line,
        printPingReply rm d raddr w
        = (Ret tt,
           mkWorld (pl w)
             (trace w
                ++ (if Type_ rm =? ICMPTypeEchoReply then []
                    else [Stdout ("Expecting echo reply, instead got code "
                                    ++ ICMPType_String (Type_ rm))])
                ++ [Stdout line]))
        /\ (Code rm = 0 ->
            line = ("Reply from " ++ raddr ++ ": time="
                      ++ Duration_String (Truncate d Millisecond)
                      ++ " loss=" ++ itoa loss ++ "%")%string)
        /\ (Code rm = 1 -> line = "Could not reach host"%string)
        /\ (Code rm <> 0 -> Code rm <> 1 ->
            line = ("Received code " ++ itoa (Code rm))%string)).
Proof.
  intros Hl. split; [reflexivity|].
  exists (code_line rm d raddr loss).
  split; [apply printPingReply_lines; exact Hl|].
  unfold code_line. repeat split.
  - intros ->. reflexivity.
  - intros ->. reflexivity.
  - intros H0 H1.
    destruct (Code rm =? 0) eqn:E0; [apply Z.eqb_eq in E0; contradiction|].
    destruct (Code rm =? 1) eqn:E1; [apply Z.eqb_eq in E1; contradiction|].
    reflexivity.
Qed.

Lemma printer_lines_witness :
  lossPercent (mkPacketLoss 3 1) = Some 0
  /\ printTimeout "10.0.0.7"%string 5000 (mkWorld (mkPacketLoss 3 1) [])
     = (Ret tt, mkWorld (mkPacketLoss 3 1) [Stdout "Request timed out."]).
Proof.
  split; [reflexivity|].
  apply (printer_lines sample_platform (mkMessage 3 1) 12345678 "10.0.0.7"%string
           5000 (mkWorld (mkPacketLoss 3 1) []) 0).
  reflexivity.
Defined.

(** ** The driver without a target *)

(** C9.  Without a positional argument ([flag.Arg(0)] is empty) [main]
    prints the usage line and the flag defaults and returns, which ends
    the process with status 0: nothing else is added to the trace (no
    handler, no resolution, no probe) and the counters are untouched,
    whatever the flags and the network. *)
Theorem main_without_target (P : Platform) (iters timeout : Z)
    (envs : nat -> probe_env) (interrupt : nat -> bool) (fuel : nat)
    (w : world) :
  main iters timeout EmptyString envs interrupt fuel w
  = (Ret tt,
     mkWorld (pl w)
       (trace w ++ [Stdout "Usage: goping [Arguments] IP/Hostname";
                    FlagDefaults])).
Proof.
  unfold main. simpl. unfold_monad. simpl.
  rewrite <- app_assoc. reflexivity.
Qed.

(** ** The timer *)

Lemma timer_duration_exact (t : Z) :
  - max_timeout <= t <= max_timeout -> timer_duration t = milliseconds t.
Proof.
  unfold max_timeout, timer_duration, milliseconds, Millisecond, GoInt.mul.
  intros H. apply wrap_in_range.
  unfold GoInt.min_int, GoInt.max_int. lia.
Qed.

(** C8, counterexample.  The flag value 9223372036855 is an [int], but
    its product with 1000000 wraps: the timer is armed with a negative
    duration instead of 9223372036855 milliseconds. *)
Lemma timer_duration_wraps :
  GoInt.in_range 9223372036855
  /\ timer_duration 9223372036855 = -9223372036854551616
  /\ timer_duration 9223372036855 <> milliseconds 9223372036855.
Proof.
  split; [|split].
  - unfold GoInt.in_range, GoInt.min_int, GoInt.max_int. lia.
  - reflexivity.
  - vm_compute. discriminate.
Qed.

(** C8, amended.  For every timeout [t] between -9223372036854 and
    9223372036854 (the default 5000 among them) the timer that [sendPing]
    arms after a successful send has the duration of exactly [t]
    milliseconds: the [After] event is the last thing before the race. *)
Theorem timer_duration_in_range (P : Platform) (dest : Addr)
    (m : list byte) (t : Z) (env : probe_env) (w : world) :
  - max_timeout <= t <= max_timeout ->
  write_err env = None ->
  timer_duration t = milliseconds t
  /\ timer_duration 5000 = 5000 * 1000000
  /\ exists rest,
       trace (snd (sendPing dest m t env w))
       = trace w ++ [WriteTo m dest; ReadFrom 1500;
                     After (milliseconds t)] ++ rest.
Proof.
  intros Ht Hw. split; [apply timer_duration_exact; exact Ht|].
  split; [reflexivity|].
  unfold sendPing. rewrite Hw. rewrite (timer_duration_exact t Ht).
  unfold_monad. simpl.
  destruct (select_ env) as [n replyIP rerr data|]; simpl.
  - destruct (slice_to (replyBytes data) n); simpl;
      exists []; rewrite <- !app_assoc; reflexivity.
  - eexists. rewrite <- !app_assoc. simpl. reflexivity.
Qed.

Lemma timer_duration_in_range_witness :
  - max_timeout <= 5000 <= max_timeout
  /\ write_err (mkProbeEnv None None TimerFirst 0) = None
  /\ timer_duration 5000 = milliseconds 5000.
Proof.
  assert (H : - max_timeout <= 5000 <= max_timeout)
    by (unfold max_timeout; lia).
  split; [exact H|]. split; [reflexivity|].
  apply (timer_duration_in_range sample_platform "10.0.0.7"%string [] 5000
           (mkProbeEnv None None TimerFirst 0) start H eq_refl).
Defined.

(** ** One probe *)

(** A probe whose receive completes first with [n] bytes ([n] within the
    buffer), whatever error [ReadFrom] reported, and whose bytes parse. *)
Lemma ping_reply {P : Platform} (a : Addr) (timeout n : Z) (replyIP : Addr)
    (rerr : option error) (data : list byte) (s : Z) (w : world)
    (rm : Message) (loss : Z) :
  0 <= n <= 1500 ->
  ParseMessage 1 (firstn (Z.to_nat n) (replyBytes data)) = Val rm ->
  let p := mkPacketLoss (GoInt.incr (totalPackets (pl w)))
                        (lostPackets (pl w)) in
  lossPercent p = Some loss ->
  ping a timeout (mkProbeEnv None None (RecvFirst n replyIP rerr data) s) w
  = (Ret tt,
     mkWorld p
       (trace w ++ [Store p] ++ probe_prefix a timeout
          ++ (if Type_ rm =? ICMPTypeEchoReply then []
              else [Stdout ("Expecting echo reply, instead got code "
                              ++ ICMPType_String (Type_ rm))])
          ++ [Stdout (code_line rm s replyIP loss); Close])).
Proof.
  intros Hn Hp p Hl.
  assert (Hlen : List.length (replyBytes data) = 1500%nat).
  { unfold replyBytes. rewrite length_app, repeat_length.
    assert (List.length (firstn 1500 data) <= 1500)%nat
      by apply firstn_le_length.
    lia. }
  unfold ping, sendPing, createICMPMessage, slice_to. unfold_monad. simpl.
  rewrite Hlen.
  replace ((0 <=? n) && (n <=? Z.of_nat 1500)) with true
    by (symmetry; apply andb_true_iff; split; apply Z.leb_le; lia).
  simpl.
  replace (n =? -1) with false by (symmetry; apply Z.eqb_neq; lia).
  rewrite Hp.
  pose proof (printPingReply_lines rm s replyIP
    (mkWorld p
       (((((trace w ++ [Store p]) ++ [ListenPacket "ip4:icmp" "0.0.0.0"])
            ++ [WriteTo (ICMP.Marshal ICMPTypeEcho 0 (Z.land Getpid 65535)
                           1 []) a])
           ++ [ReadFrom 1500]) ++ [After (timer_duration timeout)]))
    loss Hl) as Hpr.
  fold p. simpl in Hpr. rewrite Hpr. simpl.
  unfold probe_prefix. f_equal. f_equal.
  rewrite <- !app_assoc. simpl. reflexivity.
Qed.

(** A probe whose timer fires first. *)
Lemma ping_timeout {P : Platform} (a : Addr) (timeout s : Z) (w : world) :
  let p1 := mkPacketLoss (GoInt.incr (totalPackets (pl w)))
                         (lostPackets (pl w)) in
  let p2 := mkPacketLoss (GoInt.incr (totalPackets (pl w)))
                         (GoInt.incr (lostPackets (pl w))) in
  ping a timeout (mkProbeEnv None None TimerFirst s) w
  = (Ret tt,
     mkWorld p2
       (trace w ++ [Store p1] ++ probe_prefix a timeout
          ++ [Store p2; Stdout "Request timed out."; Close])).
Proof.
  intros p1 p2. unfold ping, sendPing, createICMPMessage, printTimeout.
  unfold_monad. simpl. unfold probe_prefix. f_equal. f_equal.
  rewrite <- !app_assoc. simpl. reflexivity.
Qed.

(** The result of [sendPing] when the send succeeds and the receive
    completes first: the error of [ReadFrom] is stored in the result and
    decides nothing. *)
Lemma sendPing_received {P : Platform} (dest : Addr) (m : list byte)
    (timeout n : Z) (replyIP : Addr) (rerr : option error)
    (data : list byte) (s : Z) (le : option error) (w : world) :
  sendPing dest m timeout
    (mkProbeEnv le None (RecvFirst n replyIP rerr data) s) w
  = (match slice_to (replyBytes data) n with
     | Some bytes => Ret (mkReadPacket n replyIP bytes s rerr)
     | None => Panic
     end,
     mkWorld (pl w)
       (trace w ++ [WriteTo m dest; ReadFrom 1500;
                    After (timer_duration timeout)])).
Proof.
  unfold sendPing. unfold_monad. simpl.
  destruct (slice_to (replyBytes data) n); simpl;
    rewrite <- !app_assoc; reflexivity.
Qed.

(** [ping] never reads the error of [ReadFrom]. *)
Lemma ping_ignores_receive_error {P : Platform} (a : Addr) (timeout n : Z)
    (replyIP : Addr) (rerr rerr' : option error) (data : list byte)
    (s : Z) (le we : option error) (w : world) :
  ping a timeout (mkProbeEnv le we (RecvFirst n replyIP rerr data) s) w
  = ping a timeout (mkProbeEnv le we (RecvFirst n replyIP rerr' data) s) w.
Proof.
  unfold ping, sendPing. unfold_monad. simpl.
  destruct le; simpl; [reflexivity|].
  destruct we; simpl; [reflexivity|].
  destruct (slice_to (replyBytes data) n); reflexivity.
Qed.

(** A probe whose receive completes first with [n] bytes ([n] within the
    buffer) that do not parse: the parser's error is fatal. *)
Lemma ping_parse_error {P : Platform} (a : Addr) (timeout n : Z)
    (replyIP : Addr) (rerr : option error) (data : list byte) (s : Z)
    (w : world) (e' : error) :
  0 <= n <= 1500 ->
  ParseMessage 1 (firstn (Z.to_nat n) (replyBytes data)) = Err e' ->
  let p := mkPacketLoss (GoInt.incr (totalPackets (pl w)))
                        (lostPackets (pl w)) in
  ping a timeout (mkProbeEnv None None (RecvFirst n replyIP rerr data) s) w
  = (Exit 1,
     mkWorld p (trace w ++ [Store p] ++ probe_prefix a timeout
                  ++ [LogFatal e'])).
Proof.
  intros Hn Hp p.
  assert (Hlen : List.length (replyBytes data) = 1500%nat).
  { unfold replyBytes. rewrite length_app, repeat_length.
    assert (List.length (firstn 1500 data) <= 1500)%nat
      by apply firstn_le_length.
    lia. }
  unfold ping, sendPing, createICMPMessage, slice_to. unfold_monad. simpl.
  rewrite Hlen.
  replace ((0 <=? n) && (n <=? Z.of_nat 1500)) with true
    by (symmetry; apply andb_true_iff; split; apply Z.leb_le; lia).
  simpl.
  replace (n =? -1) with false by (symmetry; apply Z.eqb_neq; lia).
  rewrite Hp. simpl. fold p. unfold probe_prefix. f_equal. f_equal.
  rewrite <- !app_assoc. simpl. reflexivity.
Qed.

(** C10, counterexample.  A receive that fails reports no bytes and no
    address along with its error.  The probe is not a timeout, the empty
    message goes to the parser, and the process ends with the parser's
    error: no reply is printed, and the error of the receive appears
    nowhere. *)
Lemma failed_receive_prints_nothing :
  @ping sample_platform "10.0.0.7"%string 5000
    (mkProbeEnv None None
       (RecvFirst 0 EmptyString (Some "recvfrom: network is down"%string) [])
       0)
    start
  = (Exit 1,
     mkWorld (mkPacketLoss 1 0)
       [Store (mkPacketLoss 1 0);
        ListenPacket "ip4:icmp" "0.0.0.0";
        WriteTo [8; 0; 231; 108; 16; 146; 0; 1] "10.0.0.7"%string;
        ReadFrom 1500;
        After 5000000000;
        LogFatal "message too short"%string]).
Proof. reflexivity. Qed.

(** C10, amended.  When the receive completes before the timer (with a
    byte count [n] within the buffer), the error [rerr] that [ReadFrom]
    returned is stored in the result of [sendPing] and never tested: the
    test after the race reads the error of [WriteTo], which is nil there.
    [sendPing] returns a packet of length [n] and leaves the loss counter
    alone, so the probe is not a timeout; the probe as a whole is the
    same for every value of [rerr]; and [ping] goes on to parse the
    bytes.  If they parse, the reply is printed; if they do not (as after
    a failed receive, which reports no bytes), the process ends through
    [log.Fatal] with the parser's error and nothing is printed. *)
Theorem receive_error_not_inspected (P : Platform) (a : Addr)
    (timeout n : Z) (replyIP : Addr) (rerr : option error)
    (data : list byte) (s : Z) (w : world) :
  0 <= n <= 1500 ->
  let p := mkPacketLoss (GoInt.incr (totalPackets (pl w)))
                        (lostPackets (pl w)) in
  let env := mkProbeEnv None None (RecvFirst n replyIP rerr data) s in
  (forall m le,
     sendPing a m timeout
       (mkProbeEnv le None (RecvFirst n replyIP rerr data) s) w
     = (Ret (mkReadPacket n replyIP
               (firstn (Z.to_nat n) (replyBytes data)) s rerr),
        mkWorld (pl w)
          (trace w ++ [WriteTo m a; ReadFrom 1500;
                       After (timer_duration timeout)])))
  /\ (forall le we rerr',
        ping a timeout
          (mkProbeEnv le we (RecvFirst n replyIP rerr data) s) w
        = ping a timeout
            (mkProbeEnv le we (RecvFirst n replyIP rerr' data) s) w)
  /\ (forall rm loss,
        ParseMessage 1 (firstn (Z.to_nat n) (replyBytes data)) = Val rm ->
        lossPercent p = Some loss ->
        ping a timeout env w
        = (Ret tt,
           mkWorld p
             (trace w ++ [Store p] ++ probe_prefix a timeout
                ++ (if Type_ rm =? ICMPTypeEchoReply then []
                    else [Stdout ("Expecting echo reply, instead got code "
                                    ++ ICMPType_String (Type_ rm))])
                ++ [Stdout (code_line rm s replyIP loss); Close])))
  /\ (forall e',
        ParseMessage 1 (firstn (Z.to_nat n) (replyBytes data)) = Err e' ->
        ping a timeout env w
        = (Exit 1,
           mkWorld p
             (trace w ++ [Store p] ++ probe_prefix a timeout
                ++ [LogFatal e']))).
Proof.
  intros Hn p env. split; [|split; [|split]].
  - intros m le. rewrite sendPing_received.
    assert (Hs : slice_to (replyBytes data) n
                 = Some (firstn (Z.to_nat n) (replyBytes data))).
    { unfold slice_to.
      assert (Hlen : List.length (replyBytes data) = 1500%nat).
      { unfold replyBytes. rewrite length_app, repeat_length.
        assert (List.length (firstn 1500 data) <= 1500)%nat
          by apply firstn_le_length.
        lia. }
      rewrite Hlen.
      replace ((0 <=? n) && (n <=? Z.of_nat 1500)) with true
        by (symmetry; apply andb_true_iff; split; apply Z.leb_le; lia).
      reflexivity. }
    rewrite Hs. reflexivity.
  - intros le we rerr'. apply ping_ignores_receive_error.
  - intros rm loss Hp Hl.
    exact (ping_reply a timeout n replyIP rerr data s w rm loss Hn Hp Hl).
  - intros e' Hp.
    exact (ping_parse_error a timeout n replyIP rerr data s w e' Hn Hp).
Qed.

Lemma receive_error_not_inspected_witness :
  0 <= 0 <= 1500
  /\ @ping sample_platform "10.0.0.7"%string 5000
       (mkProbeEnv None None
          (RecvFirst 0 EmptyString (Some "recvfrom: network is down"%string)
             [])
          0)
       (mkWorld (mkPacketLoss 4 3) [])
     = @ping sample_platform "10.0.0.7"%string 5000
         (mkProbeEnv None None (RecvFirst 0 EmptyString None []) 0)
         (mkWorld (mkPacketLoss 4 3) [])
  /\ fst (@ping sample_platform "10.0.0.7"%string 5000
            (mkProbeEnv None None
               (RecvFirst 0 EmptyString
                  (Some "recvfrom: network is down"%string) [])
               0)
            (mkWorld (mkPacketLoss 4 3) []))
     = Exit 1.
Proof.
  assert (H : 0 <= 0 <= 1500) by lia.
  split; [exact H|].
  destruct (receive_error_not_inspected sample_platform "10.0.0.7"%string
              5000 0 EmptyString (Some "recvfrom: network is down"%string)
              [] 0 (mkWorld (mkPacketLoss 4 3) []) H)
    as (_ & A & _ & B).
  split; [exact (A None None None)|].
  rewrite (B "message too short"%string eq_refl). reflexivity.
Defined.

(** ** The Echo Request *)

Lemma in_upto (n : nat) : forall z x,
  z <= x < z + Z.of_nat n -> In x (upto n z).
Proof.
  induction n as [|n IH]; intros z x H.
  - lia.
  - simpl. destruct (Z.eq_dec z x) as [->|Hne]; [left; reflexivity|].
    right. apply IH. lia.
Qed.

Lemma echo_ok_all_ids : forallb echo_ok all_ids = true.
Proof. vm_compute. reflexivity. Qed.

Lemma echo_ok_16bit (id : Z) : 0 <= id < 65536 -> echo_ok id = true.
Proof.
  intros H.
  pose proof (proj1 (forallb_forall echo_ok all_ids) echo_ok_all_ids) as A.
  apply A. unfold all_ids. apply in_upto.
  rewrite Z2Nat.id; lia.
Qed.

Lemma land_16bit (z : Z) : 0 <= Z.land z 65535 < 65536.
Proof.
  change 65535 with (Z.ones 16). rewrite Z.land_ones by lia.
  apply Z.mod_pos_bound. lia.
Qed.

(** C6.  For every process identifier and in every world,
    [createICMPMessage] returns eight bytes: type 8, code 0, two checksum
    bytes, the identifier [Getpid & 0xffff] as a 16-bit big-endian field,
    the sequence number 1 (the same for every probe: the result does not
    depend on the world), and an empty payload; the checksum over the
    whole message verifies. *)
Theorem echo_request_encoding (P : Platform) (w : world) :
  exists ch cl ih il : Z,
    createICMPMessage w = (Ret [8; 0; ch; cl; ih; il; 0; 1], w)
    /\ 0 <= ch < 256 /\ 0 <= cl < 256 /\ 0 <= il < 256
    /\ 256 * ih + il = Z.land Getpid 65535
    /\ ICMP.checksum_ok [8; 0; ch; cl; ih; il; 0; 1] = true.
Proof.
  pose proof (echo_ok_16bit (Z.land Getpid 65535) (land_16bit Getpid)) as H.
  unfold createICMPMessage, ret.
  unfold echo_ok in H.
  destruct (ICMP.Marshal ICMPTypeEcho 0 (Z.land Getpid 65535) 1 [])
    as [|t [|c [|ch [|cl [|ih [|il [|sh [|sl [|x r]]]]]]]]];
    try discriminate H.
  repeat (apply andb_true_iff in H; destruct H as [H ?]).
  repeat match goal with
         | A : (_ =? _) = true |- _ => apply Z.eqb_eq in A
         | A : (_ <=? _) = true |- _ => apply Z.leb_le in A
         | A : (_ <? _) = true |- _ => apply Z.ltb_lt in A
         end.
  subst t c sh sl.
  exists ch, cl, ih, il. repeat split; try assumption; lia.
Qed.

(** ** Strings: what [Index] finds *)

Section StringFacts.

Import Strings.
Open Scope string_scope.
Open Scope nat_scope.

Lemma length_drop (n : nat) : forall s, length (drop n s) = length s - n.
Proof.
  induction n as [|n IH]; intros [|c s]; simpl; auto.
Qed.

Lemma HasPrefix_split (pre : string) : forall s,
  HasPrefix s pre = true -> s = pre ++ drop (length pre) s.
Proof.
  induction pre as [|a pre IH]; intros s H; simpl in *.
  - destruct s; reflexivity.
  - destruct s as [|b s]; [discriminate|].
    apply andb_true_iff in H. destruct H as [Hab Hp].
    apply Ascii.eqb_eq in Hab. subst b. simpl.
    f_equal. apply IH. exact Hp.
Qed.

Lemma HasPrefix_app (pre post : string) : HasPrefix (pre ++ post) pre = true.
Proof.
  induction pre as [|a pre IH]; simpl.
  - destruct post; reflexivity.
  - rewrite Ascii.eqb_refl. exact IH.
Qed.

Lemma Index_unfold (s sep : string) :
  Index s sep
  = if HasPrefix s sep then Some 0
    else match s with
         | EmptyString => None
         | String _ s' => option_map S (Index s' sep)
         end.
Proof. destruct s; reflexivity. Qed.

(** [Index] returns a position where [sep] occurs ... *)
Lemma Index_Some_split (sep : string) : forall s m,
  Index s sep = Some m ->
  s = take m s ++ sep ++ drop (m + length sep) s.
Proof.
  induction s as [|c s IH]; intros m H; rewrite Index_unfold in H.
  - destruct (HasPrefix EmptyString sep) eqn:E; [|discriminate].
    injection H as <-. simpl. apply HasPrefix_split in E. exact E.
  - destruct (HasPrefix (String c s) sep) eqn:E.
    + injection H as <-. simpl take. simpl "+".
      apply HasPrefix_split in E. exact E.
    + destruct (Index s sep) as [m'|] eqn:Em; [|discriminate].
      simpl in H. injection H as <-. simpl. f_equal. apply IH. reflexivity.
Qed.

(** ... and it is the first one ... *)
Lemma Index_Some_first (sep : string) : forall s m,
  Index s sep = Some m ->
  forall pre post, s = pre ++ sep ++ post -> m <= length pre.
Proof.
  induction s as [|c s IH]; intros m H pre post Hs;
    rewrite Index_unfold in H.
  - destruct (HasPrefix EmptyString sep); [|discriminate].
    injection H as <-. lia.
  - destruct (HasPrefix (String c s) sep) eqn:E.
    + injection H as <-. lia.
    + destruct (Index s sep) as [m'|] eqn:Em; [|discriminate].
      simpl in H. injection H as <-.
      destruct pre as [|a pre].
      * simpl in Hs. rewrite Hs, HasPrefix_app in E. discriminate.
      * simpl in Hs. injection Hs as _ Hs. simpl.
        apply le_n_S. apply (IH m' eq_refl pre post Hs).
Qed.

(** ... while [None] means that [sep] occurs nowhere. *)
Lemma Index_None_absent (sep : string) : forall s,
  Index s sep = None ->
  forall pre post, s <> pre ++ sep ++ post.
Proof.
  induction s as [|c s IH]; intros H pre post Hs;
    rewrite Index_unfold in H.
  - destruct (HasPrefix EmptyString sep) eqn:E; [discriminate|].
    destruct pre; simpl in Hs.
    + rewrite Hs, HasPrefix_app in E. discriminate.
    + discriminate.
  - destruct (HasPrefix (String c s) sep) eqn:E; [discriminate|].
    destruct (Index s sep) as [m'|] eqn:Em; [discriminate|].
    destruct pre as [|a pre]; simpl in Hs.
    + rewrite Hs, HasPrefix_app in E. discriminate.
    + injection Hs as _ Hs. exact (IH eq_refl pre post Hs).
Qed.

Lemma length_append (s1 : string) : forall s2,
  length (s1 ++ s2) = length s1 + length s2.
Proof.
  induction s1 as [|c s1 IH]; intros s2; simpl; [|rewrite IH]; reflexivity.
Qed.

Lemma HasPrefix_length (pre : string) : forall s,
  HasPrefix s pre = true -> length pre <= length s.
Proof.
  induction pre as [|a pre IH]; intros s H; simpl in *; [lia|].
  destruct s as [|b s]; [discriminate|].
  apply andb_true_iff in H. destruct H as [_ H].
  apply IH in H. simpl. lia.
Qed.

Lemma Index_Some_length (sep : string) : forall s m,
  Index s sep = Some m -> m + length sep <= length s.
Proof.
  induction s as [|c s IH]; intros m H; rewrite Index_unfold in H.
  - destruct (HasPrefix EmptyString sep) eqn:E; [|discriminate].
    injection H as <-. apply HasPrefix_length in E. exact E.
  - destruct (HasPrefix (String c s) sep) eqn:E.
    + injection H as <-. apply HasPrefix_length in E. exact E.
    + destruct (Index s sep) as [m'|] eqn:Em; [|discriminate].
      simpl in H. injection H as <-. specialize (IH m' eq_refl).
      simpl. lia.
Qed.

End StringFacts.

(** ** The address handed to the resolver *)

Section ParseIP.

Import Strings.
Open Scope string_scope.
Open Scope nat_scope.

(** The first element of what the loop of [Split] yields. *)
Lemma split_loop_head_uncut (n : nat) (s sep : string) :
  Index s sep = None -> split_loop n s sep = [s].
Proof. intros H. destruct n; simpl; [|rewrite H]; reflexivity. Qed.

Lemma count_loop_cut (fuel : nat) (s sep : string) (m : nat) :
  Index s sep = Some m ->
  count_loop (S fuel) s sep
  = S (count_loop fuel (drop (m + length sep) s) sep).
Proof. intros H. simpl. rewrite H. reflexivity. Qed.

(** C4, counterexample.  The input "www.a.www.b" contains "www." twice;
    the string handed to the resolver is "a.", and no prefix ending in
    "www." can be removed from the original to leave "a.". *)
Lemma parseIP_addr_two_www :
  parseIP_addr "www.a.www.b" = Some "a."
  /\ ~ (exists pre, "www.a.www.b" = pre ++ "www." ++ "a.").
Proof.
  split; [reflexivity|].
  intros [pre H].
  assert (L : length pre = 5).
  { apply (f_equal length) in H. rewrite length_append in H.
    simpl in H. lia. }
  destruct pre as [|c1 [|c2 [|c3 [|c4 [|c5 [|c6 pre]]]]]];
    simpl in L; try discriminate L.
  simpl in H. discriminate H.
Qed.

(** The second element of the split, computed from [Index] alone. *)
Lemma parseIP_addr_value (ip : string) :
  parseIP_addr ip
  = Some
      match Index ip "www." with
      | None => ip
      | Some m =>
          match Index (drop (m + 4) ip) "www." with
          | None => drop (m + 4) ip
          | Some k => take k (drop (m + 4) ip)
          end
      end.
Proof.
  unfold parseIP_addr, Contains.
  destruct (Index ip "www.") as [m|] eqn:Em; [|reflexivity].
  pose proof (Index_Some_length "www." ip m Em) as Lm.
  change (length "www.") with 4 in Lm.
  unfold Split, Count.
  destruct (length ip) as [|n0] eqn:Ln; [lia|].
  rewrite (count_loop_cut n0 ip "www." m Em).
  change (length "www.") with 4.
  simpl split_loop. rewrite Em. change (length "www.") with 4.
  simpl nth_error.
  destruct (Index (drop (m + 4) ip) "www.") as [k|] eqn:Ek.
  - pose proof (Index_Some_length "www." _ k Ek) as Lk.
    change (length "www.") with 4 in Lk.
    rewrite length_drop, Ln in Lk.
    destruct n0 as [|n1]; [lia|].
    rewrite (count_loop_cut n1 _ "www." k Ek).
    simpl. rewrite Ek. reflexivity.
  - rewrite (split_loop_head_uncut _ _ _ Ek). reflexivity.
Qed.

(** The index [[1]] of [parseIP] never panics. *)
Lemma parseIP_addr_total (ip : string) : exists a, parseIP_addr ip = Some a.
Proof. rewrite parseIP_addr_value. eauto. Qed.

(** C4, amended.  When the input does not contain "www.", it is handed
    to the resolver unchanged.  When it does, with the first occurrence at
    position [m], the resolver gets the part [rest] after that occurrence
    if [rest] contains no further "www.", and otherwise only the part of
    [rest] before its own first "www.": the segment between the first two
    occurrences. *)
Theorem parseIP_addr_segment (ip : string) :
  match Index ip "www." with
  | None => parseIP_addr ip = Some ip
  | Some m =>
      let rest := drop (m + 4) ip in
      ip = take m ip ++ "www." ++ rest
      /\ match Index rest "www." with
         | None => parseIP_addr ip = Some rest
         | Some k =>
             rest = take k rest ++ "www." ++ drop (k + 4) rest
             /\ parseIP_addr ip = Some (take k rest)
         end
  end.
Proof.
  rewrite (parseIP_addr_value ip).
  destruct (Index ip "www.") as [m|] eqn:Em; [|reflexivity].
  cbv zeta. split; [exact (Index_Some_split "www." ip m Em)|].
  destruct (Index (drop (m + 4) ip) "www.") as [k|] eqn:Ek;
    [|reflexivity].
  split; [exact (Index_Some_split "www." _ k Ek)|reflexivity].
Qed.

End ParseIP.

(** ** The counters during a probe *)

Lemma stores_app (t1 t2 : list event) :
  stores (t1 ++ t2) = stores t1 ++ stores t2.
Proof.
  induction t1 as [|e t1 IH]; simpl; [reflexivity|].
  destruct e; simpl; rewrite IH; reflexivity.
Qed.

Ltac stores_norm :=
  repeat (rewrite ?stores_app; simpl; rewrite ?app_nil_r, <- ?app_assoc;
          simpl; try (split; reflexivity); try reflexivity).

Lemma printPingReply_counters {P : Platform} (rm : Message) (d : Z)
    (raddr : Addr) (w : world) :
  pl (snd (printPingReply rm d raddr w)) = pl w
  /\ stores (trace (snd (printPingReply rm d raddr w))) = stores (trace w).
Proof.
  unfold printPingReply. unfold_monad. simpl.
  destruct (lossPercent (pl w)); simpl; [|split; reflexivity].
  destruct (negb (Type_ rm =? ICMPTypeEchoReply)); simpl;
    destruct (Code rm) as [|c|c]; simpl; try (destruct c; simpl);
    stores_norm.
Qed.

(** Every probe writes the counters once to count the attempt, and once
    more, to count the loss, exactly when it times out. *)
Lemma ping_counters {P : Platform} (a : Addr) (timeout : Z)
    (env : probe_env) (w : world) :
  pl (snd (ping a timeout env w))
  = (if timed_out env then lost (attempted (pl w)) else attempted (pl w))
  /\ stores (trace (snd (ping a timeout env w)))
     = stores (trace w)
         ++ attempted (pl w)
         :: (if timed_out env then [lost (attempted (pl w))] else []).
Proof.
  destruct env as [le we sel s]. unfold timed_out, attempted, lost. simpl.
  unfold ping, sendPing, createICMPMessage, printTimeout.
  unfold_monad. simpl.
  destruct le as [e|]; simpl; [stores_norm|].
  destruct we as [e|]; simpl; [stores_norm|].
  destruct sel as [n replyIP rerr data|]; simpl; [|stores_norm].
  destruct (slice_to (replyBytes data) n) as [bytes|]; simpl;
    [|stores_norm].
  destruct (n =? -1); simpl; [stores_norm|].
  destruct (ParseMessage 1 bytes) as [rm|e]; simpl; [|stores_norm].
  match goal with
  | |- context [printPingReply rm s replyIP ?w0] =>
      pose proof (printPingReply_counters rm s replyIP w0) as [A B];
      destruct (printPingReply rm s replyIP w0) as [[| | |] w1]
  end; simpl in *; rewrite ?stores_app, ?A, ?B; stores_norm.
Qed.

(** ** Panics *)

Lemma replyBytes_length (data : list byte) :
  List.length (replyBytes data) = 1500%nat.
Proof.
  unfold replyBytes. rewrite length_app, repeat_length.
  assert (List.length (firstn 1500 data) <= 1500)%nat
    by apply firstn_le_length.
  lia.
Qed.

Lemma slice_to_replyBytes (data : list byte) (n : Z) :
  (0 <=? n) && (n <=? 1500) = true ->
  slice_to (replyBytes data) n
  = Some (firstn (Z.to_nat n) (replyBytes data)).
Proof.
  intros H. unfold slice_to. rewrite replyBytes_length.
  change (Z.of_nat 1500) with 1500. rewrite H. reflexivity.
Qed.

(** A probe does not panic once the counter of attempts is not zero after
    its increment: the division of [printPingReply] is the only other
    source of a panic than a slice out of range. *)
Lemma ping_no_panic {P : Platform} (a : Addr) (timeout : Z)
    (env : probe_env) (w : world) :
  read_in_buffer env = true ->
  GoInt.incr (totalPackets (pl w)) <> 0 ->
  fst (ping a timeout env w) <> Panic.
Proof.
  destruct env as [le we sel s]. unfold read_in_buffer. simpl.
  intros Hwf Hnz.
  unfold ping, sendPing, createICMPMessage, printTimeout.
  unfold_monad. simpl.
  destruct le as [e|]; simpl; [discriminate|].
  destruct we as [e|]; simpl; [discriminate|].
  destruct sel as [n replyIP rerr data|]; simpl; [|discriminate].
  rewrite (slice_to_replyBytes data n Hwf). simpl.
  destruct (n =? -1); simpl; [discriminate|].
  destruct (ParseMessage 1 _) as [rm|e]; simpl; [|discriminate].
  match goal with
  | |- context [printPingReply rm s replyIP ?w0] =>
      destruct (lossPercent_nonzero (pl w0) Hnz) as [loss Hl];
      rewrite (printPingReply_lines rm s replyIP w0 loss Hl)
  end.
  simpl. discriminate.
Qed.

(** ** Reasoning about the two loops *)

Section LoopInvariant.

Variable body : nat -> M unit.
Variable I : nat -> world -> Prop.
Variable G : outcome unit * world -> Prop.
Variable bound : nat.

Hypothesis step : forall k w,
  (k < bound)%nat -> I k w ->
  match fst (body k w) with
  | Ret _ => I (S k) (snd (body k w))
  | _ => G (body k w)
  end.
Hypothesis at_running : forall k w, I k w -> G (Running, w).
Hypothesis at_return : forall k w, I k w -> G (Ret tt, w).

Lemma forever_invariant : forall fuel k w,
  I k w -> (k + fuel <= bound)%nat -> G (forever fuel body k w).
Proof.
  induction fuel as [|fuel IH]; intros k w Hi Hb; simpl.
  - apply (at_running k). exact Hi.
  - unfold bind. pose proof (step k w ltac:(lia) Hi) as Hs.
    destruct (body k w) as [[[]| c | |] w']; simpl in Hs;
      try exact Hs.
    apply IH; [exact Hs|lia].
Qed.

Lemma for_loop_invariant : forall fuel i iters k w,
  I k w -> (k + fuel <= bound)%nat -> G (for_loop fuel i iters body k w).
Proof.
  induction fuel as [|fuel IH]; intros i iters k w Hi Hb; simpl.
  - destruct (i <? iters); [apply (at_running k)|apply (at_return k)];
      exact Hi.
  - destruct (i <? iters); [|apply (at_return k); exact Hi].
    unfold bind. pose proof (step k w ltac:(lia) Hi) as Hs.
    destruct (body k w) as [[[]| c | |] w']; simpl in Hs;
      try exact Hs.
    apply IH; [exact Hs|lia].
Qed.

End LoopInvariant.

(** ** The counters during a run *)

Lemma counters_ok_step (p : packetLoss) :
  counters_ok p -> totalPackets p < GoInt.max_int ->
  counters_ok (attempted p) /\ counters_ok (lost (attempted p))
  /\ totalPackets (attempted p) = totalPackets p + 1
  /\ totalPackets (lost (attempted p)) = totalPackets p + 1.
Proof.
  unfold counters_ok, attempted, lost. simpl. intros H Hm.
  assert (Hmin : GoInt.min_int < 0) by (unfold GoInt.min_int; lia).
  rewrite !incr_below_max by lia. lia.
Qed.

Lemma round_counters {P : Platform} (a : Addr) (timeout : Z)
    (envs : nat -> probe_env) (interrupt : nat -> bool) (k : nat)
    (w : world) :
  let w' := snd (round a timeout envs interrupt k w) in
  pl w'
  = (if interrupt k then pl w
     else if timed_out (envs k) then lost (attempted (pl w))
          else attempted (pl w))
  /\ stores (trace w')
     = stores (trace w)
         ++ (if interrupt k then []
             else attempted (pl w)
                  :: (if timed_out (envs k)
                      then [lost (attempted (pl w))] else [])).
Proof.
  unfold round, on_signal. unfold_monad. simpl.
  destruct (interrupt k); simpl.
  - stores_norm.
  - match goal with
    | |- context [ping a timeout (envs k) ?w0] =>
        pose proof (ping_counters a timeout (envs k) w0) as [A B];
        destruct (ping a timeout (envs k) w0) as [[| | |] w1]
    end; simpl in *; rewrite A, B; stores_norm.
Qed.

Lemma round_world_ok {P : Platform} (a : Addr) (timeout : Z)
    (envs : nat -> probe_env) (interrupt : nat -> bool) (k : nat)
    (w : world) :
  world_ok w -> totalPackets (pl w) < GoInt.max_int ->
  world_ok (snd (round a timeout envs interrupt k w))
  /\ totalPackets (pl w)
     <= totalPackets (pl (snd (round a timeout envs interrupt k w)))
     <= totalPackets (pl w) + 1.
Proof.
  intros [Hp Hs] Hm.
  destruct (round_counters a timeout envs interrupt k w) as [A B].
  destruct (counters_ok_step (pl w) Hp Hm) as (H1 & H2 & T1 & T2).
  unfold world_ok. rewrite A, B.
  destruct (interrupt k); [|destruct (timed_out (envs k))].
  - rewrite app_nil_r. split; [split; assumption|lia].
  - rewrite T2. split; [split; [exact H2|]|lia].
    apply Forall_app. split; [assumption|].
    apply Forall_cons; [exact H1|].
    apply Forall_cons; [exact H2|]. apply Forall_nil.
  - rewrite T1. split; [split; [exact H1|]|lia].
    apply Forall_app. split; [assumption|].
    apply Forall_cons; [exact H1|]. apply Forall_nil.
Qed.

Lemma loops_world_ok {P : Platform} (a : Addr) (timeout : Z)
    (envs : nat -> probe_env) (interrupt : nat -> bool) (fuel : nat)
    (w : world) :
  Z.of_nat fuel <= GoInt.max_int ->
  world_ok w -> totalPackets (pl w) = 0 ->
  world_ok (snd (forever fuel (round a timeout envs interrupt) 0 w))
  /\ forall i iters,
       world_ok
         (snd (for_loop fuel i iters (round a timeout envs interrupt) 0 w)).
Proof.
  intros Hf Hw H0.
  set (I := fun (k : nat) (w : world) =>
              world_ok w /\ 0 <= totalPackets (pl w) <= Z.of_nat k).
  set (G := fun r : outcome unit * world => world_ok (snd r)).
  assert (step : forall k w,
            (k < fuel)%nat -> I k w ->
            match fst (round a timeout envs interrupt k w) with
            | Ret _ => I (S k) (snd (round a timeout envs interrupt k w))
            | _ => G (round a timeout envs interrupt k w)
            end).
  { intros k w0 Hk [Hok Ht].
    destruct (round_world_ok a timeout envs interrupt k w0 Hok
                ltac:(lia)) as [Hok' Ht'].
    unfold I, G.
    destruct (fst (round a timeout envs interrupt k w0));
      try exact Hok'.
    split; [exact Hok'|lia]. }
  assert (Hi : I 0%nat w) by (split; [exact Hw|lia]).
  split.
  - apply (forever_invariant _ I G fuel step); try exact Hi; try lia.
    intros k w0 [Hok _]. exact Hok.
  - intros i iters.
    apply (for_loop_invariant _ I G fuel step); try exact Hi; try lia.
    + intros k w0 [Hok _]. exact Hok.
    + intros k w0 [Hok _]. exact Hok.
Qed.

(** The world in which [main] enters its loop. *)
Lemma main_unfold {P : Platform} (iters timeout : Z) (ip : string)
    (envs : nat -> probe_env) (interrupt : nat -> bool) (fuel : nat)
    (w : world) (parsedIP : Addr) (a : string) :
  ip <> EmptyString ->
  parseIP_addr ip = Some a ->
  ResolveIPAddr "ip4" a = Val parsedIP ->
  let zero := mkPacketLoss 0 0 in
  let header :=
    if iters <? 0
    then ("Pinging " ++ ip ++ " [" ++ parsedIP ++ "]")%string
    else ("Pinging " ++ ip ++ " [" ++ parsedIP ++ "] "
            ++ itoa iters ++ " times")%string in
  let w0 :=
    mkWorld zero
      (trace w ++ [SignalNotify; Resolve "ip4" a; Store zero;
                   Stdout header]) in
  main iters timeout ip envs interrupt fuel w
  = if iters <? 0
    then forever fuel (round parsedIP timeout envs interrupt) 0 w0
    else for_loop fuel 0 iters (round parsedIP timeout envs interrupt) 0 w0.
Proof.
  intros Hip Ha Hr. simpl.
  unfold main, closeHandler, parseIP.
  destruct (String.eqb ip EmptyString) eqn:E;
    [apply String.eqb_eq in E; contradiction|].
  rewrite Ha. unfold_monad. simpl. rewrite Hr.
  destruct (iters <? 0); simpl; rewrite <- !app_assoc; reflexivity.
Qed.

Lemma start_world_ok : world_ok start.
Proof.
  unfold world_ok, counters_ok, start. simpl.
  split; [lia|apply Forall_nil].
Qed.

(** In a run observed for fewer than 2^63 rounds, every value written to
    the counters and their final value satisfy the invariant. *)
Lemma main_world_ok {P : Platform} (iters timeout : Z) (ip : string)
    (envs : nat -> probe_env) (interrupt : nat -> bool) (fuel : nat) :
  Z.of_nat fuel <= GoInt.max_int ->
  world_ok (snd (main iters timeout ip envs interrupt fuel start)).
Proof.
  intros Hf.
  destruct (String.eqb ip EmptyString) eqn:E.
  - unfold main. rewrite E. unfold_monad. simpl. exact start_world_ok.
  - assert (Hip : ip <> EmptyString)
      by (intros ->; rewrite String.eqb_refl in E; discriminate).
    destruct (parseIP_addr_total ip) as [a Ha].
    destruct (ResolveIPAddr "ip4" a) as [parsedIP|e] eqn:Hr.
    + rewrite (main_unfold iters timeout ip envs interrupt fuel start
                 parsedIP a Hip Ha Hr).
      match goal with
      | |- context [forever fuel _ 0%nat ?w0] =>
          destruct (loops_world_ok parsedIP timeout envs interrupt fuel
                      w0 Hf) as [A B]
      end.
      * unfold world_ok, counters_ok. simpl. split; [lia|].
        apply Forall_cons; [simpl; lia|apply Forall_nil].
      * reflexivity.
      * destruct (iters <? 0); [exact A|apply B].
    + unfold main, closeHandler, parseIP. rewrite E, Ha.
      unfold_monad. simpl. rewrite Hr. simpl. exact start_world_ok.
Qed.

(** C2.  Every probe, whatever the network does, writes [totalPackets]
    exactly once, adding one; it writes [lostPackets], adding one, exactly
    when the probe reaches the race and the timer fires first (the
    Timeout outcome), and not when a reply is received (Success).  In a
    run observed for fewer than 2^63 rounds, [0 <= lostPackets <=
    totalPackets] holds for every value ever written to the counters and
    for their final value. *)
Theorem counters_per_probe_and_in_a_run (P : Platform) (a : Addr)
    (timeout : Z) (env : probe_env) (w : world) (iters : Z) (ip : string)
    (envs : nat -> probe_env) (interrupt : nat -> bool) (fuel : nat) :
  Z.of_nat fuel <= GoInt.max_int ->
  (let total := totalPackets (pl w) in
   let lost := lostPackets (pl w) in
   let w' := snd (ping a timeout env w) in
   totalPackets (pl w') = GoInt.incr total
   /\ lostPackets (pl w')
      = (if timed_out env then GoInt.incr lost else lost)
   /\ stores (trace w')
      = stores (trace w)
          ++ mkPacketLoss (GoInt.incr total) lost
          :: (if timed_out env
              then [mkPacketLoss (GoInt.incr total) (GoInt.incr lost)]
              else []))
  /\ (let r := snd (main iters timeout ip envs interrupt fuel start) in
      0 <= lostPackets (pl r) <= totalPackets (pl r)
      /\ Forall (fun p => 0 <= lostPackets p <= totalPackets p)
           (stores (trace r))).
Proof.
  intros Hf. split.
  - cbv zeta. destruct (ping_counters a timeout env w) as [A B].
    rewrite A, B. unfold attempted, lost.
    destruct (timed_out env); simpl; repeat split; reflexivity.
  - cbv zeta.
    destruct (main_world_ok iters timeout ip envs interrupt fuel Hf)
      as [A B].
    split; [exact A|exact B].
Qed.

Lemma counters_per_probe_and_in_a_run_witness :
  Z.of_nat 3 <= GoInt.max_int
  /\ pl (snd (@main sample_platform 3 5000 "10.0.0.7"%string sample_envs
                (fun _ => false) 3 start))
     = mkPacketLoss 3 1
  /\ 0 <= 1 <= 3.
Proof.
  assert (H : Z.of_nat 3 <= GoInt.max_int)
    by (unfold GoInt.max_int; simpl; lia).
  split; [exact H|]. split; [reflexivity|].
  pose proof (counters_per_probe_and_in_a_run sample_platform
                "10.0.0.7"%string 5000 (sample_envs 0) start 3
                "10.0.0.7"%string sample_envs (fun _ => false) 3 H)
    as [_ [A _]].
  exact A.
Defined.

(** ** No division by zero in a run *)

Lemma round_no_panic {P : Platform} (a : Addr) (timeout : Z)
    (envs : nat -> probe_env) (interrupt : nat -> bool) (k : nat)
    (w : world) :
  read_in_buffer (envs k) = true ->
  0 <= totalPackets (pl w) < GoInt.max_int ->
  fst (round a timeout envs interrupt k w) <> Panic
  /\ totalPackets (pl w)
     <= totalPackets (pl (snd (round a timeout envs interrupt k w)))
     <= totalPackets (pl w) + 1.
Proof.
  intros Hwf Ht.
  assert (Hi : GoInt.incr (totalPackets (pl w)) = totalPackets (pl w) + 1).
  { apply incr_below_max. unfold GoInt.min_int. lia. }
  split.
  - unfold round, on_signal. unfold_monad. simpl.
    destruct (interrupt k); simpl; [discriminate|].
    match goal with
    | |- context [ping a timeout (envs k) ?w0] =>
        pose proof (ping_no_panic a timeout (envs k) w0 Hwf) as Hn;
        destruct (ping a timeout (envs k) w0) as [[| | |] w1]
    end; simpl in *; try discriminate.
    apply Hn. rewrite Hi. lia.
  - destruct (round_counters a timeout envs interrupt k w) as [A _].
    rewrite A. unfold attempted, lost.
    destruct (interrupt k); [|destruct (timed_out (envs k))]; simpl;
      rewrite ?Hi; lia.
Qed.

Lemma main_no_panic {P : Platform} (iters timeout : Z) (ip : string)
    (envs : nat -> probe_env) (interrupt : nat -> bool) (fuel : nat) :
  Z.of_nat fuel <= GoInt.max_int ->
  (forall k, read_in_buffer (envs k) = true) ->
  fst (main iters timeout ip envs interrupt fuel start) <> Panic.
Proof.
  intros Hf Hwf.
  destruct (String.eqb ip EmptyString) eqn:E.
  - unfold main. rewrite E. unfold_monad. simpl. discriminate.
  - assert (Hip : ip <> EmptyString)
      by (intros ->; rewrite String.eqb_refl in E; discriminate).
    destruct (parseIP_addr_total ip) as [a Ha].
    destruct (ResolveIPAddr "ip4" a) as [parsedIP|e] eqn:Hr.
    + rewrite (main_unfold iters timeout ip envs interrupt fuel start
                 parsedIP a Hip Ha Hr).
      set (I := fun (k : nat) (w : world) =>
                  0 <= totalPackets (pl w) <= Z.of_nat k).
      set (G := fun r : outcome unit * world => fst r <> Panic).
      assert (step : forall k w,
                (k < fuel)%nat -> I k w ->
                match fst (round parsedIP timeout envs interrupt k w) with
                | Ret _ =>
                    I (S k) (snd (round parsedIP timeout envs interrupt k w))
                | _ => G (round parsedIP timeout envs interrupt k w)
                end).
      { intros k w Hk Hi. unfold I in Hi.
        destruct (round_no_panic parsedIP timeout envs interrupt k w
                    (Hwf k) ltac:(lia)) as [Hn Ht].
        unfold I, G.
        destruct (fst (round parsedIP timeout envs interrupt k w));
          try exact Hn; try discriminate.
        lia. }
      destruct (iters <? 0).
      * apply (forever_invariant _ I G fuel step);
          [intros; discriminate|unfold I; simpl; lia|lia].
      * apply (for_loop_invariant _ I G fuel step);
          [intros; discriminate|intros; discriminate
          |unfold I; simpl; lia|lia].
    + unfold main, closeHandler, parseIP. rewrite E, Ha.
      unfold_monad. simpl. rewrite Hr. simpl. discriminate.
Qed.

(** Where [ping] calls [printPingReply]: after the attempt was counted. *)
Lemma ping_calls_printer {P : Platform} (a : Addr) (timeout n : Z)
    (replyIP : Addr) (rerr : option error) (data : list byte) (s : Z)
    (w : world) (rm : Message) :
  0 <= n <= 1500 ->
  ParseMessage 1 (firstn (Z.to_nat n) (replyBytes data)) = Val rm ->
  ping a timeout (mkProbeEnv None None (RecvFirst n replyIP rerr data) s) w
  = defer (emit Close) (printPingReply rm s replyIP)
      (mkWorld (attempted (pl w))
         (trace w ++ [Store (attempted (pl w))] ++ probe_prefix a timeout)).
Proof.
  intros Hn Hp.
  assert (Hb : (0 <=? n) && (n <=? 1500) = true)
    by (apply andb_true_iff; split; apply Z.leb_le; lia).
  unfold ping, sendPing, createICMPMessage. unfold_monad. simpl.
  rewrite (slice_to_replyBytes data n Hb). simpl.
  replace (n =? -1) with false by (symmetry; apply Z.eqb_neq; lia).
  rewrite Hp. unfold attempted, probe_prefix.
  rewrite <- !app_assoc. simpl. reflexivity.
Qed.

(** C5.  The division of the loss computation is never reached with
    [totalPackets = 0].  [printPingReply] is called by [ping] alone, in a
    world where the attempt has been counted: there [totalPackets] is one
    more than before the probe, and the loss computation yields a value.
    So a probe whose receive reports a length within its buffer never
    panics, and neither does a run observed for fewer than 2^63 rounds. *)
Theorem no_division_by_zero_in_a_run (P : Platform) (iters timeout : Z)
    (ip : string) (envs : nat -> probe_env) (interrupt : nat -> bool)
    (fuel : nat) :
  Z.of_nat fuel <= GoInt.max_int ->
  (forall k, read_in_buffer (envs k) = true) ->
  (forall (a : Addr) (t n : Z) (replyIP : Addr) (rerr : option error)
          (data : list byte) (s : Z) (w : world) (rm : Message),
     0 <= totalPackets (pl w) < GoInt.max_int ->
     0 <= n <= 1500 ->
     ParseMessage 1 (firstn (Z.to_nat n) (replyBytes data)) = Val rm ->
     exists w1,
       ping a t (mkProbeEnv None None (RecvFirst n replyIP rerr data) s) w
       = defer (emit Close) (printPingReply rm s replyIP) w1
       /\ totalPackets (pl w1) = totalPackets (pl w) + 1
       /\ exists loss, lossPercent (pl w1) = Some loss)
  /\ (forall (a : Addr) (t : Z) (env : probe_env) (w : world),
        0 <= totalPackets (pl w) < GoInt.max_int ->
        read_in_buffer env = true ->
        fst (ping a t env w) <> Panic)
  /\ fst (main iters timeout ip envs interrupt fuel start) <> Panic.
Proof.
  intros Hf Hwf. split; [|split].
  - intros a t n replyIP rerr data s w rm Ht Hn Hp.
    assert (Hi : GoInt.incr (totalPackets (pl w)) = totalPackets (pl w) + 1).
    { apply incr_below_max. unfold GoInt.min_int. lia. }
    eexists. split; [exact (ping_calls_printer a t n replyIP rerr data s w
                              rm Hn Hp)|].
    cbn [pl]. unfold attempted. cbn [totalPackets]. split; [exact Hi|].
    apply lossPercent_nonzero. cbn [totalPackets]. rewrite Hi. lia.
  - intros a t env w Ht Hb. apply ping_no_panic; [exact Hb|].
    rewrite incr_below_max by (unfold GoInt.min_int; lia). lia.
  - apply main_no_panic; assumption.
Qed.

Lemma no_division_by_zero_in_a_run_witness :
  Z.of_nat 3 <= GoInt.max_int
  /\ (forall k, read_in_buffer (sample_envs k) = true)
  /\ fst (@main sample_platform 3 5000 "10.0.0.7"%string sample_envs
            (fun _ => false) 3 start)
     <> Panic.
Proof.
  assert (H : Z.of_nat 3 <= GoInt.max_int)
    by (unfold GoInt.max_int; simpl; lia).
  assert (W : forall k, read_in_buffer (sample_envs k) = true)
    by (intros [|k]; reflexivity).
  split; [exact H|]. split; [exact W|].
  apply (no_division_by_zero_in_a_run sample_platform 3 5000
           "10.0.0.7"%string sample_envs (fun _ => false) 3 H W).
Defined.

(** ** The rounds of the driver *)

Lemma forever_split (body : nat -> M unit) : forall n f k w,
  forever (n + f) body k w
  = (rounds_from n body k ;; forever f body (k + n)%nat) w.
Proof.
  induction n as [|n IH]; intros f k w; simpl.
  - unfold bind, ret. rewrite Nat.add_0_r. reflexivity.
  - unfold bind.
    destruct (body k w) as [[[]| c | |] w']; try reflexivity.
    rewrite IH. unfold bind. rewrite Nat.add_succ_r. reflexivity.
Qed.

Lemma for_loop_split (body : nat -> M unit) (iters : Z) :
  iters <= GoInt.max_int ->
  forall n f i k w,
    GoInt.min_int <= i -> i + Z.of_nat n <= iters ->
    for_loop (n + f) i iters body k w
    = (rounds_from n body k ;;
       for_loop f (i + Z.of_nat n) iters body (k + n)%nat) w.
Proof.
  intros Hm. induction n as [|n IH]; intros f i k w Hi Hn.
  - simpl rounds_from. unfold bind, ret.
    rewrite Nat.add_0_r, Z.add_0_r. reflexivity.
  - change (S n + f)%nat with (S (n + f)). simpl for_loop.
    replace (i <? iters) with true by (symmetry; apply Z.ltb_lt; lia).
    simpl rounds_from. unfold bind.
    destruct (body k w) as [[[]| c | |] w']; try reflexivity.
    rewrite incr_below_max by lia.
    rewrite IH by lia. unfold bind.
    replace (i + 1 + Z.of_nat n) with (i + Z.of_nat (S n)) by lia.
    rewrite Nat.add_succ_r. reflexivity.
Qed.

Lemma forever_never_returns (body : nat -> M unit) : forall fuel k w,
  fst (forever fuel body k w) <> Ret tt.
Proof.
  induction fuel as [|fuel IH]; intros k w; simpl.
  - discriminate.
  - unfold bind. destruct (body k w) as [[[]| c | |] w']; simpl;
      try discriminate.
    apply IH.
Qed.

Lemma ping_quiet {P : Platform} (a : Addr) (timeout : Z)
    (env : probe_env) (w : world) :
  quiet env = true ->
  GoInt.incr (totalPackets (pl w)) <> 0 ->
  exists p evs,
    ping a timeout env w = (Ret tt, mkWorld p (trace w ++ evs))
    /\ probes evs = 1%nat /\ sleeps evs = 0%nat
    /\ totalPackets p = GoInt.incr (totalPackets (pl w)).
Proof.
  destruct env as [le we sel s]. unfold quiet. simpl. intros Hq Hnz.
  destruct le; [discriminate|]. destruct we; [discriminate|].
  destruct sel as [n replyIP rerr data|].
  - apply andb_true_iff in Hq. destruct Hq as [Hn Hp].
    destruct (ParseMessage 1 (firstn (Z.to_nat n) (replyBytes data)))
      as [rm|] eqn:Epm; [|discriminate].
    apply andb_true_iff in Hn. destruct Hn as [Hn0 Hn1].
    apply Z.leb_le in Hn0. apply Z.leb_le in Hn1.
    destruct (lossPercent_nonzero (attempted (pl w)) Hnz) as [loss Hl].
    rewrite (ping_reply a timeout n replyIP rerr data s w rm loss
               (conj Hn0 Hn1) Epm Hl).
    eexists. eexists. split; [reflexivity|].
    unfold probes, sleeps, probe_prefix.
    destruct (Type_ rm =? ICMPTypeEchoReply); simpl;
      repeat split; reflexivity.
  - rewrite ping_timeout. eexists. eexists. split; [reflexivity|].
    repeat split; reflexivity.
Qed.

Lemma round_quiet {P : Platform} (a : Addr) (timeout : Z)
    (envs : nat -> probe_env) (interrupt : nat -> bool) (k : nat)
    (w : world) :
  quiet (envs k) = true -> interrupt k = false ->
  GoInt.incr (totalPackets (pl w)) <> 0 ->
  exists p evs,
    round a timeout envs interrupt k w
    = (Ret tt, mkWorld p (trace w ++ with_sleep evs))
    /\ one_probe evs
    /\ totalPackets p = GoInt.incr (totalPackets (pl w)).
Proof.
  intros Hq Hi Hnz. unfold round. rewrite Hi. unfold_monad. simpl.
  destruct (ping_quiet a timeout (envs k)
              (mkWorld (pl w) (trace w ++ [Sleep Second])) Hq Hnz)
    as (p & evs & He & Hp & Hs & Ht).
  rewrite He. exists p, evs. simpl. rewrite <- app_assoc.
  repeat split; assumption.
Qed.

Lemma rounds_quiet {P : Platform} (a : Addr) (timeout : Z)
    (envs : nat -> probe_env) (interrupt : nat -> bool) :
  forall n k w,
    (forall j, (k <= j < k + n)%nat ->
               quiet (envs j) = true /\ interrupt j = false) ->
    0 <= totalPackets (pl w) ->
    totalPackets (pl w) + Z.of_nat n <= GoInt.max_int ->
    exists rs w',
      rounds_from n (round a timeout envs interrupt) k w = (Ret tt, w')
      /\ trace w' = trace w ++ List.concat (map with_sleep rs)
      /\ List.length rs = n
      /\ Forall one_probe rs.
Proof.
  induction n as [|n IH]; intros k w Hq H0 Hm.
  - exists [], w. simpl. rewrite app_nil_r. repeat split. apply Forall_nil.
  - assert (Hi : GoInt.incr (totalPackets (pl w))
                 = totalPackets (pl w) + 1).
    { apply incr_below_max. unfold GoInt.min_int. lia. }
    destruct (Hq k ltac:(lia)) as [Hqk Hik].
    destruct (round_quiet a timeout envs interrupt k w Hqk Hik
                ltac:(lia)) as (p & evs & He & Ho & Ht).
    destruct (IH (S k) (mkWorld p (trace w ++ with_sleep evs)))
      as (rs & w' & Hr & Htr & Hl & Hf).
    + intros j Hj. apply Hq. lia.
    + simpl. lia.
    + simpl. lia.
    + exists (evs :: rs), w'. simpl rounds_from. unfold bind.
      rewrite He, Hr. split; [reflexivity|].
      split; [|split].
      * rewrite Htr. simpl. rewrite <- app_assoc. reflexivity.
      * simpl. rewrite Hl. reflexivity.
      * apply Forall_cons; assumption.
Qed.

Lemma probes_rounds (rs : list (list event)) :
  Forall one_probe rs ->
  probes (List.concat (map with_sleep rs)) = List.length rs
  /\ sleeps (List.concat (map with_sleep rs)) = List.length rs.
Proof.
  unfold probes, sleeps.
  induction 1 as [|r rs [Hp Hs] _ [IHp IHs]]; simpl; [split; reflexivity|].
  rewrite !filter_app, !length_app, IHp, IHs.
  unfold probes, sleeps in Hp, Hs. rewrite Hp, Hs. split; reflexivity.
Qed.

Lemma for_loop_done (body : nat -> M unit) (fuel : nat) (i iters : Z)
    (k : nat) (w : world) :
  iters <= i -> for_loop fuel i iters body k w = (Ret tt, w).
Proof.
  intros H. destruct fuel; simpl;
    (replace (i <? iters) with false by (symmetry; apply Z.ltb_ge; lia));
    reflexivity.
Qed.

Lemma round_interrupted {P : Platform} (a : Addr) (timeout : Z)
    (envs : nat -> probe_env) (interrupt : nat -> bool) (k : nat)
    (w : world) :
  interrupt k = true ->
  round a timeout envs interrupt k w
  = (Exit 0, mkWorld (pl w) (trace w ++ [Sleep Second; Stdout "Done."])).
Proof.
  intros Hi. unfold round, on_signal. rewrite Hi. unfold_monad. simpl.
  rewrite <- app_assoc. reflexivity.
Qed.

(** C7, counterexample.  With [-n 2] and a socket that cannot be opened,
    the first probe ends the process with status 1: one probe is begun,
    not two, no request is sent, and [main] does not return.  With [-n
    -1] the same network ends the run without any interrupt. *)
Lemma driver_loop_stopped_by_fatal :
  @main sample_platform 2 5000 "10.0.0.7"%string refused_envs
    (fun _ => false) 2 start
  = (Exit 1,
     mkWorld (mkPacketLoss 1 0)
       [SignalNotify; Resolve "ip4" "10.0.0.7";
        Store (mkPacketLoss 0 0);
        Stdout "Pinging 10.0.0.7 [10.0.0.7] 2 times";
        Sleep Second; Store (mkPacketLoss 1 0);
        ListenPacket "ip4:icmp" "0.0.0.0";
        LogFatal "socket: operation not permitted"%string])
  /\ fst (@main sample_platform (-1) 5000 "10.0.0.7"%string refused_envs
            (fun _ => false) 5 start)
     = Exit 1.
Proof. split; reflexivity. Qed.

(** C7, amended.  Let the target resolve and let no probe end the process
    (every probe is quiet: the socket opens, the request is sent, and the
    probe times out or receives a message that parses).  With [-n k],
    [k >= 0], and no interrupt, [main]
    returns after exactly [k] rounds, each a one-second sleep followed by
    one probe, as soon as it is observed for [k] rounds or more.  With a
    negative [-n], [main] never returns, however long it is observed:
    without an interrupt it is still running after any number of rounds,
    each a one-second sleep and one probe; an interrupt during the sleep
    of round [s] ends the process with status 0 after [s] probes. *)
Theorem driver_loop_rounds (P : Platform) (n timeout : Z) (ip a : string)
    (parsedIP : Addr) (envs : nat -> probe_env) (interrupt : nat -> bool) :
  ip <> EmptyString ->
  parseIP_addr ip = Some a ->
  ResolveIPAddr "ip4" a = Val parsedIP ->
  GoInt.in_range n ->
  (forall j, quiet (envs j) = true) ->
  (0 <= n -> (forall j, interrupt j = false) ->
   forall fuel, (Z.to_nat n <= fuel)%nat ->
   exists rs w',
     main n timeout ip envs interrupt fuel start = (Ret tt, w')
     /\ trace w'
        = [SignalNotify; Resolve "ip4" a; Store (mkPacketLoss 0 0);
           Stdout ("Pinging " ++ ip ++ " [" ++ parsedIP ++ "] "
                     ++ itoa n ++ " times")]
            ++ List.concat (map with_sleep rs)
     /\ List.length rs = Z.to_nat n
     /\ Forall one_probe rs
     /\ probes (trace w') = Z.to_nat n)
  /\ (n < 0 ->
      (forall fuel,
         fst (main n timeout ip envs interrupt fuel start) <> Ret tt)
      /\ ((forall j, interrupt j = false) ->
          forall fuel, Z.of_nat fuel <= GoInt.max_int ->
          exists rs w',
            main n timeout ip envs interrupt fuel start = (Running, w')
            /\ trace w'
               = [SignalNotify; Resolve "ip4" a; Store (mkPacketLoss 0 0);
                  Stdout ("Pinging " ++ ip ++ " [" ++ parsedIP ++ "]")]
                   ++ List.concat (map with_sleep rs)
            /\ List.length rs = fuel
            /\ Forall one_probe rs)
      /\ (forall s,
            interrupt s = true ->
            (forall j, (j < s)%nat -> interrupt j = false) ->
            Z.of_nat s <= GoInt.max_int ->
            forall fuel, (s < fuel)%nat ->
            exists rs w',
              main n timeout ip envs interrupt fuel start = (Exit 0, w')
              /\ trace w'
                 = [SignalNotify; Resolve "ip4" a;
                    Store (mkPacketLoss 0 0);
                    Stdout ("Pinging " ++ ip ++ " [" ++ parsedIP ++ "]")]
                     ++ List.concat (map with_sleep rs)
                     ++ [Sleep Second; Stdout "Done."]
              /\ List.length rs = s
              /\ Forall one_probe rs)).
Proof.
  intros Hip Ha Hr [Hlo Hhi] Hq. split.
  - intros Hn Hi fuel Hfuel.
    rewrite (main_unfold n timeout ip envs interrupt fuel start parsedIP a
               Hip Ha Hr).
    replace (n <? 0) with false by (symmetry; apply Z.ltb_ge; lia).
    replace fuel with (Z.to_nat n + (fuel - Z.to_nat n))%nat by lia.
    rewrite (for_loop_split _ n Hhi)
      by (unfold GoInt.min_int; lia).
    unfold bind.
    match goal with
    | |- context [rounds_from _ _ 0%nat ?w0] =>
        destruct (rounds_quiet parsedIP timeout envs interrupt
                    (Z.to_nat n) 0%nat w0)
          as (rs & w' & Hrun & Htr & Hl & Hf)
    end.
    + intros j _. split; [apply Hq|apply Hi].
    + simpl. lia.
    + simpl. lia.
    + exists rs, w'. rewrite Hrun.
      rewrite for_loop_done by lia.
      split; [reflexivity|]. simpl in Htr.
      split; [exact Htr|]. split; [exact Hl|]. split; [exact Hf|].
      rewrite Htr. unfold probes. simpl.
      destruct (probes_rounds rs Hf) as [Hp _]. unfold probes in Hp.
      rewrite Hp. exact Hl.
  - intros Hn.
    assert (En : (n <? 0) = true) by (apply Z.ltb_lt; lia).
    split; [|split].
    + intros fuel.
      rewrite (main_unfold n timeout ip envs interrupt fuel start parsedIP
                 a Hip Ha Hr).
      rewrite En. apply forever_never_returns.
    + intros Hi fuel Hfuel.
      rewrite (main_unfold n timeout ip envs interrupt fuel start parsedIP
                 a Hip Ha Hr).
      rewrite En.
      match goal with
      | |- context [forever fuel ?b 0%nat ?w0] =>
          pose proof (forever_split b fuel 0 0 w0) as Hsplit;
          rewrite Nat.add_0_r in Hsplit; rewrite Hsplit; clear Hsplit
      end.
      unfold bind.
      match goal with
      | |- context [rounds_from _ _ 0%nat ?w0] =>
          destruct (rounds_quiet parsedIP timeout envs interrupt
                      fuel 0%nat w0)
            as (rs & w' & Hrun & Htr & Hl & Hf)
      end.
      * intros j _. split; [apply Hq|apply Hi].
      * simpl. lia.
      * simpl. lia.
      * exists rs, w'. rewrite Hrun. simpl.
        split; [reflexivity|]. simpl in Htr.
        split; [exact Htr|]. split; [exact Hl|exact Hf].
    + intros s Hs Hbefore Hsm fuel Hfuel.
      rewrite (main_unfold n timeout ip envs interrupt fuel start parsedIP
                 a Hip Ha Hr).
      rewrite En.
      replace fuel with (s + S (fuel - S s))%nat by lia.
      rewrite forever_split. unfold bind.
      match goal with
      | |- context [rounds_from _ _ 0%nat ?w0] =>
          destruct (rounds_quiet parsedIP timeout envs interrupt
                      s 0%nat w0)
            as (rs & w' & Hrun & Htr & Hl & Hf)
      end.
      * intros j Hj. split; [apply Hq|apply Hbefore; lia].
      * simpl. lia.
      * simpl. lia.
      * rewrite Hrun. simpl forever. unfold bind.
        simpl Nat.add. rewrite (round_interrupted _ _ _ _ _ _ Hs).
        eexists rs, _. split; [reflexivity|]. simpl trace.
        rewrite Htr. simpl.
        split; [reflexivity|]. split; [exact Hl|exact Hf].
Qed.

Lemma driver_loop_rounds_witness :
  "10.0.0.7"%string <> EmptyString
  /\ parseIP_addr "10.0.0.7" = Some "10.0.0.7"%string
  /\ @ResolveIPAddr sample_platform "ip4" "10.0.0.7" = Val "10.0.0.7"%string
  /\ GoInt.in_range 3
  /\ (forall j, @quiet sample_platform (sample_envs j) = true)
  /\ fst (@main sample_platform 3 5000 "10.0.0.7"%string sample_envs
            (fun _ => false) 3 start) = Ret tt
  /\ probes (trace (snd (@main sample_platform 3 5000 "10.0.0.7"%string
                           sample_envs (fun _ => false) 3 start)))
     = 3%nat.
Proof.
  assert (H1 : "10.0.0.7"%string <> EmptyString) by discriminate.
  assert (H2 : parseIP_addr "10.0.0.7" = Some "10.0.0.7"%string)
    by reflexivity.
  assert (H3 : @ResolveIPAddr sample_platform "ip4" "10.0.0.7"
               = Val "10.0.0.7"%string) by reflexivity.
  assert (H4 : GoInt.in_range 3)
    by (unfold GoInt.in_range, GoInt.min_int, GoInt.max_int; lia).
  assert (H5 : forall j, @quiet sample_platform (sample_envs j) = true)
    by (intros [|j]; reflexivity).
  repeat (split; [assumption|]).
  destruct (driver_loop_rounds sample_platform 3 5000 "10.0.0.7"%string
              "10.0.0.7"%string "10.0.0.7"%string sample_envs
              (fun _ => false) H1 H2 H3 H4 H5) as [Hfin _].
  destruct (Hfin ltac:(lia) (fun _ => eq_refl) 3%nat (Nat.le_refl _))
    as (rs & w' & Hrun & _ & _ & _ & Hp).
  rewrite Hrun. simpl. split; [reflexivity|exact Hp].
Defined.

(** * Further properties of the program *)

(** ** Resolution *)

(** When the resolver rejects the name, [main] logs the error and ends
    the process with status 1 right after installing the signal handler:
    no header line is printed, the counters are not written and no probe
    is begun, whatever the flags and the network. *)
Theorem resolution_failure_is_fatal (P : Platform) (iters timeout : Z)
    (ip a : string) (e : error) (envs : nat -> probe_env)
    (interrupt : nat -> bool) (fuel : nat) (w : world) :
  ip <> EmptyString ->
  parseIP_addr ip = Some a ->
  ResolveIPAddr "ip4" a = Err e ->
  main iters timeout ip envs interrupt fuel w
  = (Exit 1,
     mkWorld (pl w) (trace w ++ [SignalNotify; Resolve "ip4" a; LogFatal e])).
Proof.
  intros Hip Ha Hr. unfold main, closeHandler, parseIP.
  destruct (String.eqb ip EmptyString) eqn:E;
    [apply String.eqb_eq in E; contradiction|].
  rewrite Ha. unfold_monad. simpl. rewrite Hr. simpl.
  rewrite <- !app_assoc. reflexivity.
Qed.

Lemma resolution_failure_is_fatal_witness :
  "www.nowhere.invalid"%string <> EmptyString
  /\ parseIP_addr "www.nowhere.invalid" = Some "nowhere.invalid"%string
  /\ @ResolveIPAddr no_dns_platform "ip4" "nowhere.invalid"
     = Err "lookup nowhere.invalid: no such host"%string
  /\ fst (@main no_dns_platform 4 5000 "www.nowhere.invalid"%string
            sample_envs (fun _ => false) 4 start)
     = Exit 1.
Proof.
  assert (H1 : "www.nowhere.invalid"%string <> EmptyString) by discriminate.
  assert (H2 : parseIP_addr "www.nowhere.invalid"
               = Some "nowhere.invalid"%string) by reflexivity.
  assert (H3 : @ResolveIPAddr no_dns_platform "ip4" "nowhere.invalid"
               = Err "lookup nowhere.invalid: no such host"%string)
    by reflexivity.
  repeat (split; [assumption|]).
  rewrite (resolution_failure_is_fatal no_dns_platform 4 5000
             "www.nowhere.invalid"%string "nowhere.invalid"%string
             "lookup nowhere.invalid: no such host"%string
             sample_envs (fun _ => false) 4 start H1 H2 H3).
  reflexivity.
Defined.

(** ** The name handed to the resolver *)

Section ResolverArgument.

Import Strings.
Open Scope string_scope.
Open Scope nat_scope.

Lemma append_empty_r (s : string) : s ++ EmptyString = s.
Proof. induction s as [|c s IH]; simpl; [|rewrite IH]; reflexivity. Qed.

Lemma append_assoc (s1 s2 s3 : string) :
  (s1 ++ s2) ++ s3 = s1 ++ (s2 ++ s3).
Proof. induction s1 as [|c s1 IH]; simpl; [|rewrite IH]; reflexivity. Qed.

Lemma HasPrefix_take (pre : string) : forall n s,
  HasPrefix (take n s) pre = true -> HasPrefix s pre = true.
Proof.
  induction pre as [|a pre IH]; intros n s H;
    [destruct s; reflexivity|].
  destruct n as [|n]; destruct s as [|b s]; simpl in *; try discriminate.
  apply andb_true_iff in H. destruct H as [Hab Hp].
  rewrite Hab. simpl. exact (IH n s Hp).
Qed.

(** No occurrence of a non-empty [sep] lies before the first one. *)
Lemma Index_take_None (c0 : ascii) (sep0 : string) : forall s k,
  Index s (String c0 sep0) = Some k ->
  Index (take k s) (String c0 sep0) = None.
Proof.
  induction s as [|c s IH]; intros k H; rewrite Index_unfold in H.
  - simpl in H. discriminate.
  - destruct (HasPrefix (String c s) (String c0 sep0)) eqn:E.
    + injection H as <-. reflexivity.
    + destruct (Index s (String c0 sep0)) as [k'|] eqn:Ek; [|discriminate].
      simpl in H. injection H as <-.
      change (take (S k') (String c s)) with (String c (take k' s)).
      rewrite Index_unfold.
      destruct (HasPrefix (String c (take k' s)) (String c0 sep0)) eqn:E'.
      * apply (HasPrefix_take _ (S k') (String c s)) in E'.
        rewrite E in E'. discriminate.
      * rewrite (IH k' eq_refl). reflexivity.
Qed.

(** Whatever the input, the name handed to the resolver is a piece of the
    input that does not contain "www.": [parseIP] applied to its own
    result changes nothing. *)
Theorem resolver_argument_has_no_www (ip : string) :
  exists a,
    parseIP_addr ip = Some a
    /\ Contains a "www." = false
    /\ parseIP_addr a = Some a
    /\ exists pre post, ip = pre ++ a ++ post.
Proof.
  assert (fixed : forall a, Index a "www." = None ->
                            Contains a "www." = false
                            /\ parseIP_addr a = Some a).
  { intros a Ha. unfold parseIP_addr, Contains. rewrite Ha.
    split; reflexivity. }
  rewrite (parseIP_addr_value ip).
  destruct (Index ip "www.") as [m|] eqn:Em.
  - pose proof (Index_Some_split "www." ip m Em) as Hs.
    change (length "www.") with 4 in Hs.
    destruct (Index (drop (m + 4) ip) "www.") as [k|] eqn:Ek.
    + pose proof (Index_Some_split "www." _ k Ek) as Hr.
      change (length "www.") with 4 in Hr.
      eexists. split; [reflexivity|].
      destruct (fixed _ (Index_take_None _ _ _ k Ek)) as [A B].
      split; [exact A|]. split; [exact B|].
      exists (take m ip ++ "www."),
             ("www." ++ drop (k + 4) (drop (m + 4) ip)).
      rewrite append_assoc. rewrite <- Hr. exact Hs.
    + eexists. split; [reflexivity|].
      destruct (fixed _ Ek) as [A B].
      split; [exact A|]. split; [exact B|].
      exists (take m ip ++ "www."), EmptyString.
      rewrite append_empty_r, append_assoc. exact Hs.
  - eexists. split; [reflexivity|].
    destruct (fixed _ Em) as [A B].
    split; [exact A|]. split; [exact B|].
    exists EmptyString, EmptyString. rewrite append_empty_r. reflexivity.
Qed.

End ResolverArgument.

(** ** The protocol of one probe *)

Lemma protocol_events_app (t1 t2 : list event) :
  protocol_events (t1 ++ t2) = protocol_events t1 ++ protocol_events t2.
Proof. apply filter_app. Qed.

Lemma printPingReply_events {P : Platform} (rm : Message) (d : Z)
    (raddr : Addr) (w : world) :
  exists evs,
    trace (snd (printPingReply rm d raddr w)) = trace w ++ evs
    /\ protocol_events evs = []
    /\ (fst (printPingReply rm d raddr w) = Ret tt
        \/ fst (printPingReply rm d raddr w) = Panic).
Proof.
  unfold printPingReply. unfold_monad. simpl.
  destruct (lossPercent (pl w)); simpl.
  - destruct (negb (Type_ rm =? ICMPTypeEchoReply)); simpl;
      destruct (Code rm) as [|c|c]; simpl; try (destruct c; simpl);
      eexists; (split; [rewrite <- ?app_assoc; simpl; reflexivity|]);
      (split; [reflexivity|left; reflexivity]).
  - exists []. rewrite app_nil_r. repeat split. right. reflexivity.
Qed.

(** What one probe does with the socket and the timer, for every
    behaviour of the network. *)
Lemma ping_events {P : Platform} (a : Addr) (timeout : Z)
    (env : probe_env) (w : world) :
  exists evs,
    trace (snd (ping a timeout env w)) = trace w ++ evs
    /\ protocol_events evs
       = match listen_err env, write_err env with
         | Some _, _ => [ListenPacket "ip4:icmp" "0.0.0.0"]
         | None, Some _ =>
             [ListenPacket "ip4:icmp" "0.0.0.0"; WriteTo request a]
         | None, None =>
             [ListenPacket "ip4:icmp" "0.0.0.0"; WriteTo request a;
              ReadFrom 1500; After (timer_duration timeout)]
               ++ match fst (ping a timeout env w) with
                  | Exit _ => []
                  | _ => [Close]
                  end
         end.
Proof.
  destruct env as [le we sel s]. simpl.
  unfold ping, sendPing, createICMPMessage, printTimeout, request.
  unfold_monad. simpl.
  destruct le as [e|]; simpl.
  { eexists. split; [rewrite <- ?app_assoc; simpl; reflexivity|].
    reflexivity. }
  destruct we as [e|]; simpl.
  { eexists. split; [rewrite <- ?app_assoc; simpl; reflexivity|].
    reflexivity. }
  destruct sel as [n replyIP rerr data|]; simpl.
  2:{ eexists. split; [rewrite <- ?app_assoc; simpl; reflexivity|].
      reflexivity. }
  destruct (slice_to (replyBytes data) n) as [bytes|]; simpl.
  2:{ eexists. split; [rewrite <- ?app_assoc; simpl; reflexivity|].
      reflexivity. }
  destruct (n =? -1); simpl.
  { eexists. split; [rewrite <- ?app_assoc; simpl; reflexivity|].
    reflexivity. }
  destruct (ParseMessage 1 bytes) as [rm|e]; simpl.
  2:{ eexists. split; [rewrite <- ?app_assoc; simpl; reflexivity|].
      reflexivity. }
  match goal with
  | |- context [printPingReply rm s replyIP ?w0] =>
      destruct (printPingReply_events rm s replyIP w0)
        as (evs0 & Ht & Hp & Ho);
      destruct (printPingReply rm s replyIP w0) as [o w1]
  end.
  simpl in Ht, Ho.
  destruct Ho as [-> | ->]; simpl; rewrite Ht;
    (eexists; split; [rewrite <- ?app_assoc; simpl; reflexivity|]);
    simpl; rewrite protocol_events_app, Hp; reflexivity.
Qed.

(** A probe ends the process only through [log.Fatal]. *)
Lemma ping_exit_status {P : Platform} (a : Addr) (timeout : Z)
    (env : probe_env) (w : world) (c : Z) :
  fst (ping a timeout env w) = Exit c -> c = 1.
Proof.
  destruct env as [le we sel s].
  unfold ping, sendPing, createICMPMessage, printTimeout.
  unfold_monad. simpl.
  destruct le as [e|]; simpl; [intros H; injection H; auto|].
  destruct we as [e|]; simpl; [intros H; injection H; auto|].
  destruct sel as [n replyIP rerr data|]; simpl; [|discriminate].
  destruct (slice_to (replyBytes data) n) as [bytes|]; simpl;
    [|discriminate].
  destruct (n =? -1); simpl; [discriminate|].
  destruct (ParseMessage 1 bytes) as [rm|e]; simpl;
    [|intros H; injection H; auto].
  match goal with
  | |- context [printPingReply rm s replyIP ?w0] =>
      destruct (printPingReply_events rm s replyIP w0)
        as (evs0 & _ & _ & Ho);
      destruct (printPingReply rm s replyIP w0) as [o w1]
  end.
  simpl in Ho. destruct Ho as [-> | ->]; simpl; discriminate.
Qed.

(** For every behaviour of the network a probe opens the socket once;
    it sends one request, and only after the socket opened; it starts
    the receive and arms the timer once each, and only after the send
    succeeded; and it closes the socket exactly when the race was reached
    and the process goes on.  On a fatal error the process exits with
    status 1 and the deferred [Close] is not run. *)
Theorem probe_protocol (P : Platform) (a : Addr) (timeout : Z)
    (env : probe_env) (w : world) :
  (exists evs,
     trace (snd (ping a timeout env w)) = trace w ++ evs
     /\ protocol_events evs
        = match listen_err env, write_err env with
          | Some _, _ => [ListenPacket "ip4:icmp" "0.0.0.0"]
          | None, Some _ =>
              [ListenPacket "ip4:icmp" "0.0.0.0"; WriteTo request a]
          | None, None =>
              [ListenPacket "ip4:icmp" "0.0.0.0"; WriteTo request a;
               ReadFrom 1500; After (timer_duration timeout)]
                ++ match fst (ping a timeout env w) with
                   | Exit _ => []
                   | _ => [Close]
                   end
          end)
  /\ (forall c, fst (ping a timeout env w) = Exit c -> c = 1)
  /\ (listen_err env <> None \/ write_err env <> None ->
      fst (ping a timeout env w) = Exit 1).
Proof.
  split; [apply ping_events|]. split; [apply ping_exit_status|].
  destruct env as [le we sel s]. simpl.
  unfold ping, sendPing, createICMPMessage. unfold_monad. simpl.
  destruct le as [e|]; simpl; [reflexivity|].
  destruct we as [e|]; simpl; [reflexivity|].
  intros [H|H]; contradiction.
Qed.

Lemma timed_out_quiet {P : Platform} (env : probe_env) :
  timed_out env = true -> quiet env = true.
Proof.
  unfold timed_out, quiet.
  destruct (listen_err env), (write_err env), (select_ env);
    try discriminate; reflexivity.
Qed.

(** A probe that is not quiet ends the process. *)
Lemma ping_not_quiet {P : Platform} (a : Addr) (timeout : Z)
    (env : probe_env) (w : world) :
  read_in_buffer env = true -> quiet env = false ->
  fst (ping a timeout env w) = Exit 1.
Proof.
  destruct env as [le we sel s]. unfold read_in_buffer, quiet. simpl.
  intros Hb Hq.
  unfold ping, sendPing, createICMPMessage. unfold_monad. simpl.
  destruct le as [e|]; simpl; [reflexivity|].
  destruct we as [e|]; simpl; [reflexivity|].
  destruct sel as [n replyIP rerr data|]; [|discriminate].
  simpl. rewrite (slice_to_replyBytes data n Hb). simpl.
  rewrite Hb in Hq. simpl in Hq.
  apply andb_true_iff in Hb. destruct Hb as [Hn0 _].
  apply Z.leb_le in Hn0.
  replace (n =? -1) with false by (symmetry; apply Z.eqb_neq; lia).
  destruct (ParseMessage 1 (firstn (Z.to_nat n) (replyBytes data)));
    [discriminate|reflexivity].
Qed.

(** A probe returns exactly when the network is quiet: the socket opens,
    the request is sent, and the timer fires first or the message
    received parses.  Every other probe ends the process with status 1.
    (The counter of attempts is below the largest [int], and the
    receive reports a length within its buffer.) *)
Theorem probe_outcome (P : Platform) (a : Addr) (timeout : Z)
    (env : probe_env) (w : world) :
  read_in_buffer env = true ->
  0 <= totalPackets (pl w) < GoInt.max_int ->
  fst (ping a timeout env w) = if quiet env then Ret tt else Exit 1.
Proof.
  intros Hb Ht. destruct (quiet env) eqn:Hq.
  - destruct (ping_quiet a timeout env w Hq) as (p & evs & He & _).
    + rewrite incr_below_max by (unfold GoInt.min_int; lia). lia.
    + rewrite He. reflexivity.
  - apply ping_not_quiet; assumption.
Qed.

Lemma probe_outcome_witness :
  read_in_buffer (sample_envs 1) = true
  /\ 0 <= totalPackets (pl start) < GoInt.max_int
  /\ fst (@ping sample_platform "10.0.0.7"%string 5000 (sample_envs 1)
            start)
     = Ret tt.
Proof.
  assert (H1 : read_in_buffer (sample_envs 1) = true) by reflexivity.
  assert (H2 : 0 <= totalPackets (pl start) < GoInt.max_int)
    by (unfold GoInt.max_int; simpl; lia).
  split; [exact H1|]. split; [exact H2|].
  exact (probe_outcome sample_platform "10.0.0.7"%string 5000
           (sample_envs 1) start H1 H2).
Defined.

(** ** What a reply line reports *)

(** A reply is printed by the probe that received it, so at least one
    probe of the run was not lost and the quotient of the two counters is
    0: with counters that satisfy the invariant, the line printed for a
    reply with code 0 always ends in "loss=0%", however many earlier
    probes timed out. *)
Theorem reply_line_reports_zero_loss (P : Platform) (a : Addr)
    (timeout n : Z) (replyIP : Addr) (rerr : option error)
    (data : list byte) (s : Z) (w : world) (rm : Message) :
  0 <= lostPackets (pl w) <= totalPackets (pl w) ->
  totalPackets (pl w) < GoInt.max_int ->
  0 <= n <= 1500 ->
  ParseMessage 1 (firstn (Z.to_nat n) (replyBytes data)) = Val rm ->
  Code rm = 0 ->
  exists evs,
    ping a timeout (mkProbeEnv None None (RecvFirst n replyIP rerr data) s) w
    = (Ret tt,
       mkWorld (mkPacketLoss (totalPackets (pl w) + 1) (lostPackets (pl w)))
         (trace w ++ evs
            ++ [Stdout ("Reply from " ++ replyIP ++ ": time="
                          ++ Duration_String (Truncate s Millisecond)
                          ++ " loss=0%");
                Close])).
Proof.
  intros Hl Hm Hn Hp Hc.
  assert (Hi : GoInt.incr (totalPackets (pl w)) = totalPackets (pl w) + 1).
  { apply incr_below_max. unfold GoInt.min_int. lia. }
  assert (Hloss : lossPercent
                    (mkPacketLoss (GoInt.incr (totalPackets (pl w)))
                                  (lostPackets (pl w))) = Some 0).
  { rewrite Hi. rewrite lossPercent_in_run by lia.
    replace (lostPackets (pl w) =? totalPackets (pl w) + 1) with false
      by (symmetry; apply Z.eqb_neq; lia).
    reflexivity. }
  rewrite (ping_reply a timeout n replyIP rerr data s w rm 0 Hn Hp Hloss).
  rewrite Hi.
  assert (Hline : code_line rm s replyIP 0
                  = ("Reply from " ++ replyIP ++ ": time="
                       ++ Duration_String (Truncate s Millisecond)
                       ++ " loss=0%")%string).
  { unfold code_line. rewrite Hc. reflexivity. }
  rewrite Hline.
  exists ([Store (mkPacketLoss (totalPackets (pl w) + 1)
                               (lostPackets (pl w)))]
            ++ probe_prefix a timeout
            ++ (if Type_ rm =? ICMPTypeEchoReply then []
                else [Stdout ("Expecting echo reply, instead got code "
                                ++ ICMPType_String (Type_ rm))])).
  rewrite <- !app_assoc. reflexivity.
Qed.

Lemma reply_line_reports_zero_loss_witness :
  0 <= 3 <= 4
  /\ 4 < GoInt.max_int
  /\ 0 <= 8 <= 1500
  /\ exists evs,
       @ping sample_platform "10.0.0.7"%string 5000 (sample_envs 1)
         (mkWorld (mkPacketLoss 4 3) [])
       = (Ret tt,
          mkWorld (mkPacketLoss 5 3)
            (evs ++ [Stdout "Reply from 10.0.0.7: time=12ms loss=0%";
                     Close])).
Proof.
  assert (H1 : 0 <= 3 <= 4) by lia.
  assert (H2 : 4 < GoInt.max_int) by (unfold GoInt.max_int; lia).
  assert (H3 : 0 <= 8 <= 1500) by lia.
  split; [exact H1|]. split; [exact H2|]. split; [exact H3|].
  exact (reply_line_reports_zero_loss sample_platform "10.0.0.7"%string
           5000 8 "10.0.0.7"%string None [0; 0; 0; 0; 0; 1; 0; 1] 12345678
           (mkWorld (mkPacketLoss 4 3) []) (mkMessage 0 0)
           H1 H2 H3 eq_refl eq_refl).
Defined.

(** ** The counters at the end of a run *)

Lemma rounds_quiet_counters {P : Platform} (a : Addr) (timeout : Z)
    (envs : nat -> probe_env) (interrupt : nat -> bool) :
  forall n k w,
    (forall j, (k <= j < k + n)%nat ->
               quiet (envs j) = true /\ interrupt j = false) ->
    counters_ok (pl w) ->
    totalPackets (pl w) + Z.of_nat n <= GoInt.max_int ->
    pl (snd (rounds_from n (round a timeout envs interrupt) k w))
    = mkPacketLoss
        (totalPackets (pl w) + Z.of_nat n)
        (lostPackets (pl w)
         + Z.of_nat (List.length (filter timed_out (map envs (seq k n))))).
Proof.
  induction n as [|n IH]; intros k w Hq Hok Hm.
  - cbn [rounds_from seq map filter List.length]. unfold ret.
    cbn [snd]. rewrite !Z.add_0_r. destruct (pl w); reflexivity.
  - assert (Hlt : totalPackets (pl w) < GoInt.max_int) by lia.
    pose proof Hok as Hok'. unfold counters_ok in Hok'.
    destruct (counters_ok_step (pl w) Hok Hlt) as (H1 & H2 & T1 & T2).
    destruct (Hq k ltac:(lia)) as [Hqk Hik].
    destruct (round_quiet a timeout envs interrupt k w Hqk Hik)
      as (p & evs & He & _ & _).
    { rewrite incr_below_max by (unfold GoInt.min_int; lia). lia. }
    destruct (round_counters a timeout envs interrupt k w) as [A _].
    rewrite He, Hik in A. cbn [snd pl] in A.
    cbn [rounds_from]. unfold bind. rewrite He.
    rewrite IH.
    + cbn [pl seq map filter]. rewrite A.
      destruct (timed_out (envs k)); cbn [List.length];
        [rewrite T2|rewrite T1]; unfold lost, attempted;
        cbn [totalPackets lostPackets]; f_equal; try lia.
      rewrite incr_below_max by (unfold GoInt.min_int; lia). lia.
    + intros j Hj. apply Hq. lia.
    + cbn [pl]. rewrite A. destruct (timed_out (envs k)); assumption.
    + cbn [pl]. rewrite A.
      destruct (timed_out (envs k)); [rewrite T2|rewrite T1]; lia.
Qed.

(** The finite loop of [main], once the target has resolved and when it
    is observed long enough: the rounds, then the return. *)
Lemma main_finite {P : Platform} (n timeout : Z) (ip a : string)
    (parsedIP : Addr) (envs : nat -> probe_env) (interrupt : nat -> bool)
    (fuel : nat) :
  ip <> EmptyString ->
  parseIP_addr ip = Some a ->
  ResolveIPAddr "ip4" a = Val parsedIP ->
  0 <= n <= GoInt.max_int ->
  (Z.to_nat n <= fuel)%nat ->
  main n timeout ip envs interrupt fuel start
  = (rounds_from (Z.to_nat n) (round parsedIP timeout envs interrupt) 0 ;;
     ret tt)
      (mkWorld (mkPacketLoss 0 0)
         [SignalNotify; Resolve "ip4" a; Store (mkPacketLoss 0 0);
          Stdout ("Pinging " ++ ip ++ " [" ++ parsedIP ++ "] "
                    ++ itoa n ++ " times")]).
Proof.
  intros Hip Ha Hr [Hn Hhi] Hfuel.
  rewrite (main_unfold n timeout ip envs interrupt fuel start parsedIP a
             Hip Ha Hr).
  replace (n <? 0) with false by (symmetry; apply Z.ltb_ge; lia).
  replace fuel with (Z.to_nat n + (fuel - Z.to_nat n))%nat by lia.
  rewrite (for_loop_split _ n Hhi) by (unfold GoInt.min_int; lia).
  unfold bind. cbn [trace start app].
  match goal with
  | |- context [rounds_from ?m ?b 0%nat ?w0] =>
      destruct (rounds_from m b 0%nat w0) as [[[]| c | |] w']
  end; try reflexivity.
  rewrite for_loop_done by lia. reflexivity.
Qed.

(** With [-n k] and a network on which every probe runs to its end, the
    run returns with [totalPackets = k] and [lostPackets] equal to the
    number of probes, among the [k], whose timer fired first. *)
Theorem finite_run_counters (P : Platform) (n timeout : Z) (ip a : string)
    (parsedIP : Addr) (envs : nat -> probe_env) (interrupt : nat -> bool)
    (fuel : nat) :
  ip <> EmptyString ->
  parseIP_addr ip = Some a ->
  ResolveIPAddr "ip4" a = Val parsedIP ->
  0 <= n <= GoInt.max_int ->
  (Z.to_nat n <= fuel)%nat ->
  (forall j, quiet (envs j) = true) ->
  (forall j, interrupt j = false) ->
  fst (main n timeout ip envs interrupt fuel start) = Ret tt
  /\ pl (snd (main n timeout ip envs interrupt fuel start))
     = mkPacketLoss n (timeouts envs (Z.to_nat n)).
Proof.
  intros Hip Ha Hr Hn Hfuel Hq Hi.
  rewrite (main_finite n timeout ip a parsedIP envs interrupt fuel
             Hip Ha Hr Hn Hfuel).
  unfold bind.
  match goal with
  | |- context [rounds_from _ _ 0%nat ?w0] =>
      destruct (rounds_quiet parsedIP timeout envs interrupt
                  (Z.to_nat n) 0%nat w0)
        as (rs & w' & Hrun & _);
      [ intros j _; split; [apply Hq|apply Hi]
      | cbn [pl totalPackets]; lia
      | cbn [pl totalPackets]; lia
      | pose proof (rounds_quiet_counters parsedIP timeout envs interrupt
                      (Z.to_nat n) 0%nat w0) as Hc ]
  end.
  rewrite Hrun in *. cbn [fst snd] in *. unfold ret. cbn [fst snd].
  split; [reflexivity|].
  rewrite Hc.
  - cbn [pl totalPackets lostPackets]. unfold timeouts.
    f_equal; lia.
  - intros j _. split; [apply Hq|apply Hi].
  - unfold counters_ok. cbn [pl totalPackets lostPackets]. lia.
  - cbn [pl totalPackets]. lia.
Qed.

Lemma finite_run_counters_witness :
  "10.0.0.7"%string <> EmptyString
  /\ 0 <= 3 <= GoInt.max_int
  /\ (forall j, @quiet sample_platform (sample_envs j) = true)
  /\ pl (snd (@main sample_platform 3 5000 "10.0.0.7"%string sample_envs
                (fun _ => false) 3 start))
     = mkPacketLoss 3 1.
Proof.
  assert (H1 : "10.0.0.7"%string <> EmptyString) by discriminate.
  assert (H4 : 0 <= 3 <= GoInt.max_int) by (unfold GoInt.max_int; lia).
  assert (H5 : forall j, @quiet sample_platform (sample_envs j) = true)
    by (intros [|j]; reflexivity).
  split; [exact H1|]. split; [exact H4|]. split; [exact H5|].
  exact (proj2 (finite_run_counters sample_platform 3 5000
                  "10.0.0.7"%string "10.0.0.7"%string "10.0.0.7"%string
                  sample_envs (fun _ => false) 3 H1 eq_refl eq_refl H4
                  (Nat.le_refl _) H5 (fun _ => eq_refl))).
Defined.

(** ** The first probe that fails *)

Lemma probes_protocol (t : list event) :
  probes (protocol_events t) = probes t.
Proof.
  unfold probes, protocol_events.
  induction t as [|e t IH]; [reflexivity|].
  destruct e; cbn [filter is_protocol is_probe List.length];
    rewrite ?IH; reflexivity.
Qed.

(** Every probe opens the socket exactly once. *)
Lemma ping_one_probe {P : Platform} (a : Addr) (timeout : Z)
    (env : probe_env) (w : world) :
  exists evs,
    trace (snd (ping a timeout env w)) = trace w ++ evs
    /\ probes evs = 1%nat.
Proof.
  destruct (ping_events a timeout env w) as (evs & Ht & Hp).
  exists evs. split; [exact Ht|].
  rewrite <- probes_protocol, Hp.
  destruct (listen_err env), (write_err env); try reflexivity.
  destruct (fst (ping a timeout env w)); reflexivity.
Qed.

Lemma round_not_quiet {P : Platform} (a : Addr) (timeout : Z)
    (envs : nat -> probe_env) (interrupt : nat -> bool) (k : nat)
    (w : world) :
  interrupt k = false ->
  read_in_buffer (envs k) = true ->
  quiet (envs k) = false ->
  exists evs,
    round a timeout envs interrupt k w
    = (Exit 1, mkWorld (attempted (pl w)) (trace w ++ with_sleep evs))
    /\ probes evs = 1%nat.
Proof.
  intros Hi Hb Hq. unfold round. rewrite Hi. unfold_monad.
  cbn [fst snd pl trace].
  set (w1 := mkWorld (pl w) (trace w ++ [Sleep Second])).
  pose proof (ping_not_quiet a timeout (envs k) w1 Hb Hq) as Ho.
  destruct (ping_counters a timeout (envs k) w1) as [Hpl _].
  destruct (ping_one_probe a timeout (envs k) w1) as (evs & Ht & Hp).
  assert (Hto : timed_out (envs k) = false).
  { destruct (timed_out (envs k)) eqn:E; [|reflexivity].
    apply timed_out_quiet in E. rewrite Hq in E. discriminate. }
  rewrite Hto in Hpl.
  destruct (ping a timeout (envs k) w1) as [o [p t]].
  cbn [fst snd pl trace] in *. subst o p t.
  exists evs. split; [|exact Hp].
  subst w1. cbn [pl trace]. unfold with_sleep.
  rewrite <- app_assoc. reflexivity.
Qed.

(** Once the target has resolved, the run stops at the first probe that
    fails.  If the probes before probe [j] run to their end, probe [j]
    fails (the socket does not open, the send fails, or the message
    received does not parse) and no interrupt comes, then with [-n]
    negative or larger than [j] the process exits with status 1 after
    [j + 1] probes were begun and counted: no later probe runs. *)
Theorem first_failure_ends_the_run (P : Platform) (n timeout : Z)
    (ip a : string) (parsedIP : Addr) (envs : nat -> probe_env)
    (interrupt : nat -> bool) (j fuel : nat) :
  ip <> EmptyString ->
  parseIP_addr ip = Some a ->
  ResolveIPAddr "ip4" a = Val parsedIP ->
  GoInt.in_range n ->
  n < 0 \/ Z.of_nat j < n ->
  (j < fuel)%nat ->
  Z.of_nat j < GoInt.max_int ->
  (forall i, (i < j)%nat -> quiet (envs i) = true) ->
  quiet (envs j) = false ->
  read_in_buffer (envs j) = true ->
  (forall i, (i <= j)%nat -> interrupt i = false) ->
  fst (main n timeout ip envs interrupt fuel start) = Exit 1
  /\ probes (trace (snd (main n timeout ip envs interrupt fuel start)))
     = S j
  /\ totalPackets (pl (snd (main n timeout ip envs interrupt fuel start)))
     = Z.of_nat (S j).
Proof.
  intros Hip Ha Hr [Hlo Hhi] Hn Hfuel Hj Hq Hnq Hb Hi.
  rewrite (main_unfold n timeout ip envs interrupt fuel start parsedIP a
             Hip Ha Hr).
  cbn [trace start app].
  set (w0 := mkWorld (mkPacketLoss 0 0) _).
  set (body := round parsedIP timeout envs interrupt).
  (* the [j] rounds before the failure *)
  destruct (rounds_quiet parsedIP timeout envs interrupt j 0%nat w0)
    as (rs & w' & Hrun & Htr & Hl & Hf).
  { intros i Hi'. split; [apply Hq|apply Hi]; lia. }
  { unfold w0. cbn [pl totalPackets]. lia. }
  { unfold w0. cbn [pl totalPackets]. lia. }
  pose proof (rounds_quiet_counters parsedIP timeout envs interrupt j
                0%nat w0) as Hc.
  fold body in Hrun, Hc. rewrite Hrun in Hc. cbn [snd] in Hc.
  assert (Htot : totalPackets (pl w') = Z.of_nat j).
  { rewrite Hc.
    - unfold w0. cbn [pl totalPackets]. lia.
    - intros i Hi'. split; [apply Hq|apply Hi]; lia.
    - unfold counters_ok, w0. cbn [pl totalPackets lostPackets]. lia.
    - unfold w0. cbn [pl totalPackets]. lia. }
  (* the failing round *)
  destruct (round_not_quiet parsedIP timeout envs interrupt j w'
              (Hi j (Nat.le_refl j)) Hb Hnq) as (evs & Hfail & Hp).
  fold body in Hfail.
  assert (Hend :
            (if n <? 0 then forever fuel body 0 w0
             else for_loop fuel 0 n body 0 w0)
            = (Exit 1,
               mkWorld (attempted (pl w')) (trace w' ++ with_sleep evs))).
  { replace fuel with (j + S (fuel - S j))%nat by lia.
    destruct (n <? 0) eqn:En.
    - rewrite forever_split. unfold bind. rewrite Hrun.
      cbn [forever Nat.add]. unfold bind. rewrite Hfail. reflexivity.
    - apply Z.ltb_ge in En.
      rewrite (for_loop_split body n Hhi)
        by (unfold GoInt.min_int; lia).
      unfold bind. rewrite Hrun. cbn [for_loop Nat.add].
      replace (0 + Z.of_nat j <? n) with true
        by (symmetry; apply Z.ltb_lt; lia).
      unfold bind. rewrite Hfail. reflexivity. }
  fold body. rewrite Hend. cbn [fst snd pl trace].
  split; [reflexivity|]. split.
  - rewrite Htr. unfold w0. cbn [trace].
    unfold probes. rewrite !filter_app, !length_app.
    destruct (probes_rounds rs Hf) as [Hpr _].
    unfold probes in Hpr, Hp. rewrite Hpr, Hl.
    unfold with_sleep. cbn [filter is_probe]. rewrite Hp.
    cbn [List.length]. lia.
  - unfold attempted. cbn [totalPackets]. rewrite Htot.
    rewrite incr_below_max by (unfold GoInt.min_int; lia). lia.
Qed.

Lemma first_failure_ends_the_run_witness :
  "10.0.0.7"%string <> EmptyString
  /\ GoInt.in_range 3
  /\ (3 < 0 \/ Z.of_nat 1 < 3)
  /\ @quiet sample_platform (refused_later_envs 1) = false
  /\ read_in_buffer (refused_later_envs 1) = true
  /\ fst (@main sample_platform 3 5000 "10.0.0.7"%string
            refused_later_envs (fun _ => false) 3 start)
     = Exit 1
  /\ probes (trace (snd (@main sample_platform 3 5000 "10.0.0.7"%string
                           refused_later_envs (fun _ => false) 3 start)))
     = 2%nat.
Proof.
  assert (H1 : "10.0.0.7"%string <> EmptyString) by discriminate.
  assert (H2 : GoInt.in_range 3)
    by (unfold GoInt.in_range, GoInt.min_int, GoInt.max_int; lia).
  assert (H3 : 3 < 0 \/ Z.of_nat 1 < 3) by (right; simpl; lia).
  assert (H4 : @quiet sample_platform (refused_later_envs 1) = false)
    by reflexivity.
  assert (H5 : read_in_buffer (refused_later_envs 1) = true)
    by reflexivity.
  repeat (split; [assumption|]).
  assert (H6 : (1 < 3)%nat) by lia.
  assert (H7 : Z.of_nat 1 < GoInt.max_int)
    by (unfold GoInt.max_int; simpl; lia).
  assert (H8 : forall i, (i < 1)%nat ->
                 @quiet sample_platform (refused_later_envs i) = true).
  { intros i Hi. assert (i = 0%nat) as -> by lia. reflexivity. }
  destruct (first_failure_ends_the_run sample_platform 3 5000
              "10.0.0.7"%string "10.0.0.7"%string "10.0.0.7"%string
              refused_later_envs (fun _ => false) 1 3
              H1 eq_refl eq_refl H2 H3 H6 H7 H8 H4 H5
              (fun _ _ => eq_refl)) as (A & B & _).
  split; [exact A|exact B].
Defined.

(** ** The timeout line and the loss counter *)

Lemma timeout_lines_app (t1 t2 : list event) :
  timeout_lines (t1 ++ t2) = (timeout_lines t1 + timeout_lines t2)%nat.
Proof. unfold timeout_lines. rewrite filter_app. apply length_app. Qed.

Lemma printPingReply_no_timeout_line {P : Platform} (rm : Message) (d : Z)
    (raddr : Addr) (w : world) :
  exists evs,
    trace (snd (printPingReply rm d raddr w)) = trace w ++ evs
    /\ timeout_lines evs = 0%nat.
Proof.
  unfold printPingReply. unfold_monad. simpl.
  destruct (lossPercent (pl w)); simpl.
  - destruct (negb (Type_ rm =? ICMPTypeEchoReply)); simpl;
      destruct (Code rm) as [|c|c]; simpl; try (destruct c; simpl);
      eexists; (split; [rewrite <- ?app_assoc; simpl; reflexivity|]);
      reflexivity.
  - exists []. rewrite app_nil_r. split; reflexivity.
Qed.

(** For every behaviour of the network, a probe prints the line "Request
    timed out." once when it reaches the race and the timer fires first,
    and never otherwise; this is exactly when it adds one to
    [lostPackets].  The marker [lenMsg = -1] of a timeout is never
    produced by a receive. *)
Theorem timeout_line_iff_lost (P : Platform) (a : Addr) (timeout : Z)
    (env : probe_env) (w : world) :
  exists evs,
    trace (snd (ping a timeout env w)) = trace w ++ evs
    /\ timeout_lines evs = (if timed_out env then 1 else 0)%nat
    /\ lostPackets (pl (snd (ping a timeout env w)))
       = (if timed_out env then GoInt.incr (lostPackets (pl w))
          else lostPackets (pl w)).
Proof.
  assert (Hlost : lostPackets (pl (snd (ping a timeout env w)))
                  = (if timed_out env then GoInt.incr (lostPackets (pl w))
                     else lostPackets (pl w))).
  { destruct (ping_counters a timeout env w) as [A _]. rewrite A.
    destruct (timed_out env); reflexivity. }
  revert Hlost. generalize (lostPackets (pl (snd (ping a timeout env w)))).
  intros l Hlost.
  cut (exists evs,
         trace (snd (ping a timeout env w)) = trace w ++ evs
         /\ timeout_lines evs = (if timed_out env then 1 else 0)%nat).
  { intros (evs & A & B). exists evs. repeat split; assumption. }
  clear l Hlost.
  destruct env as [le we sel s]. unfold timed_out. simpl.
  unfold ping, sendPing, createICMPMessage, printTimeout.
  unfold_monad. simpl.
  destruct le as [e|]; simpl.
  { eexists. split; [rewrite <- ?app_assoc; simpl; reflexivity|].
    reflexivity. }
  destruct we as [e|]; simpl.
  { eexists. split; [rewrite <- ?app_assoc; simpl; reflexivity|].
    reflexivity. }
  destruct sel as [n replyIP rerr data|]; simpl.
  2:{ eexists. split; [rewrite <- ?app_assoc; simpl; reflexivity|].
      reflexivity. }
  destruct (slice_to (replyBytes data) n) as [bytes|] eqn:Es; simpl.
  2:{ eexists. split; [rewrite <- ?app_assoc; simpl; reflexivity|].
      reflexivity. }
  destruct (n =? -1) eqn:En; simpl.
  { (* a receive of length -1 cannot be sliced *)
    apply Z.eqb_eq in En. subst n. unfold slice_to in Es.
    simpl in Es. discriminate Es. }
  destruct (ParseMessage 1 bytes) as [rm|e]; simpl.
  2:{ eexists. split; [rewrite <- ?app_assoc; simpl; reflexivity|].
      reflexivity. }
  match goal with
  | |- context [printPingReply rm s replyIP ?w0] =>
      destruct (printPingReply_no_timeout_line rm s replyIP w0)
        as (evs0 & Ht & Hp);
      destruct (printPingReply rm s replyIP w0) as [[| | |] w1]
  end; simpl in Ht; simpl; rewrite ?Ht;
    (eexists; split; [rewrite <- ?app_assoc; simpl; reflexivity|]);
    unfold timeout_lines in *; cbn [filter is_timeout_line];
    rewrite ?filter_app, ?length_app, ?Hp; reflexivity.
Qed.

(** ** The interrupt *)

(** Either loop stops in round [j] when that round ends the process. *)
Lemma loop_stops_at (body : nat -> M unit) (n : Z) (j fuel : nat)
    (w0 w' w'' : world) (c : Z) :
  n <= GoInt.max_int ->
  n < 0 \/ Z.of_nat j < n ->
  (j < fuel)%nat ->
  rounds_from j body 0 w0 = (Ret tt, w') ->
  body j w' = (Exit c, w'') ->
  (if n <? 0 then forever fuel body 0 w0
   else for_loop fuel 0 n body 0 w0)
  = (Exit c, w'').
Proof.
  intros Hhi Hn Hfuel Hrun Hstop.
  replace fuel with (j + S (fuel - S j))%nat by lia.
  destruct (n <? 0) eqn:En.
  - rewrite forever_split. unfold bind. rewrite Hrun.
    cbn [forever Nat.add]. unfold bind. rewrite Hstop. reflexivity.
  - apply Z.ltb_ge in En.
    rewrite (for_loop_split body n Hhi) by (unfold GoInt.min_int; lia).
    unfold bind. rewrite Hrun. cbn [for_loop Nat.add].
    replace (0 + Z.of_nat j <? n) with true
      by (symmetry; apply Z.ltb_lt; lia).
    unfold bind. rewrite Hstop. reflexivity.
Qed.

(** An interrupt ends a counted run as it ends an endless one.  If the
    probes before round [s] run to their end and the signal comes during
    the sleep of round [s] (with [-n] negative or larger than [s]), the
    process prints "Done." and exits with status 0: [s] probes were run,
    the counters stand at [s] attempts and the timeouts among them, and
    the last two events are the sleep and the line "Done.". *)
Theorem interrupt_ends_the_run (P : Platform) (n timeout : Z)
    (ip a : string) (parsedIP : Addr) (envs : nat -> probe_env)
    (interrupt : nat -> bool) (s fuel : nat) :
  ip <> EmptyString ->
  parseIP_addr ip = Some a ->
  ResolveIPAddr "ip4" a = Val parsedIP ->
  GoInt.in_range n ->
  n < 0 \/ Z.of_nat s < n ->
  (s < fuel)%nat ->
  Z.of_nat s <= GoInt.max_int ->
  (forall i, (i < s)%nat -> quiet (envs i) = true /\ interrupt i = false) ->
  interrupt s = true ->
  exists t,
    main n timeout ip envs interrupt fuel start
    = (Exit 0,
       mkWorld (mkPacketLoss (Z.of_nat s) (timeouts envs s))
         (t ++ [Sleep Second; Stdout "Done."]))
    /\ probes t = s.
Proof.
  intros Hip Ha Hr [Hlo Hhi] Hn Hfuel Hs Hq Hi.
  rewrite (main_unfold n timeout ip envs interrupt fuel start parsedIP a
             Hip Ha Hr).
  cbn [trace start app].
  set (w0 := mkWorld (mkPacketLoss 0 0) _).
  set (body := round parsedIP timeout envs interrupt).
  destruct (rounds_quiet parsedIP timeout envs interrupt s 0%nat w0)
    as (rs & w' & Hrun & Htr & Hl & Hf).
  { intros i Hi'. apply Hq. lia. }
  { unfold w0. cbn [pl totalPackets]. lia. }
  { unfold w0. cbn [pl totalPackets]. lia. }
  pose proof (rounds_quiet_counters parsedIP timeout envs interrupt s
                0%nat w0) as Hc.
  fold body in Hrun, Hc. rewrite Hrun in Hc. cbn [snd] in Hc.
  assert (Hpl : pl w' = mkPacketLoss (Z.of_nat s) (timeouts envs s)).
  { rewrite Hc.
    - unfold w0, timeouts. cbn [pl totalPackets lostPackets].
      f_equal; lia.
    - intros i Hi'. apply Hq. lia.
    - unfold counters_ok, w0. cbn [pl totalPackets lostPackets]. lia.
    - unfold w0. cbn [pl totalPackets]. lia. }
  pose proof (round_interrupted parsedIP timeout envs interrupt s w' Hi)
    as Hstop.
  fold body in Hstop.
  fold body.
  rewrite (loop_stops_at body n s fuel w0 w' _ 0 Hhi Hn Hfuel Hrun Hstop).
  rewrite Hpl. exists (trace w'). split; [reflexivity|].
  rewrite Htr. unfold w0. cbn [trace].
  unfold probes. rewrite filter_app, length_app.
  destruct (probes_rounds rs Hf) as [Hpr _].
  unfold probes in Hpr. rewrite Hpr, Hl. reflexivity.
Qed.

Lemma interrupt_ends_the_run_witness :
  "10.0.0.7"%string <> EmptyString
  /\ GoInt.in_range 5
  /\ (5 < 0 \/ Z.of_nat 2 < 5)
  /\ fst (@main sample_platform 5 5000 "10.0.0.7"%string sample_envs
            (fun k => Nat.eqb k 2) 5 start)
     = Exit 0
  /\ pl (snd (@main sample_platform 5 5000 "10.0.0.7"%string sample_envs
                (fun k => Nat.eqb k 2) 5 start))
     = mkPacketLoss 2 1.
Proof.
  assert (H1 : "10.0.0.7"%string <> EmptyString) by discriminate.
  assert (H2 : GoInt.in_range 5)
    by (unfold GoInt.in_range, GoInt.min_int, GoInt.max_int; lia).
  assert (H3 : 5 < 0 \/ Z.of_nat 2 < 5) by (right; simpl; lia).
  repeat (split; [assumption|]).
  assert (H6 : (2 < 5)%nat) by lia.
  assert (H7 : Z.of_nat 2 <= GoInt.max_int)
    by (unfold GoInt.max_int; simpl; lia).
  assert (H8 : forall i, (i < 2)%nat ->
                 @quiet sample_platform (sample_envs i) = true
                 /\ Nat.eqb i 2 = false).
  { intros i Hi. destruct i as [|[|i]]; [split; reflexivity ..|lia]. }
  destruct (interrupt_ends_the_run sample_platform 5 5000
              "10.0.0.7"%string "10.0.0.7"%string "10.0.0.7"%string
              sample_envs (fun k => Nat.eqb k 2) 2 5
              H1 eq_refl eq_refl H2 H3 H6 H7 H8 eq_refl) as (t & A & _).
  rewrite A. split; reflexivity.
Defined.
